(** * StarSearch: the ESO phase 3 archive client [ESOquery]

    A shallow embedding of [starsearch/phase3Archive.py] and the proofs of
    the properties stated about it.

    The client is a thin layer over three collaborators that are not part of
    the repository: the archive access library ([Eso]: [query_main],
    [query_surveys], [retrieve_data]), the time library ([Time]) and numpy
    ([np.loadtxt]).  The archive and the time library are section variables;
    what the client does with their answers is modelled from the source.
    Console output and remote calls are recorded, in program order, in a
    trace of events. *)

From Stdlib Require Import QArith.
From stdpp Require Import gmap strings list.
From Stdlib Require Import Ascii String.

Close Scope Q_scope.
Local Open Scope Z_scope.

(** ** Python strings *)

Module PyStr.

(** [s.endswith(suffix)] *)
Definition endswith (s suffix : string) : bool :=
  let n := String.length s in
  let k := String.length suffix in
  (k <=? n)%nat && String.eqb (substring (n - k) k s) suffix.

(** [s[:-k]] for a positive literal [k]: the stop index [len(s) - k] is
    clamped at [0], so a string shorter than [k] yields the empty string. *)
Definition drop_last (k : nat) (s : string) : string :=
  substring 0 (String.length s - k) s.

(** [not s] for a parameter that is [None] or a string *)
Definition falsy (o : option string) : bool :=
  match o with
  | None => true
  | Some s => String.eqb s ""
  end.

(** [if s:] *)
Definition truthy (o : option string) : bool := negb (falsy o).

Definition nl : string := String (ascii_of_nat 10) "".

End PyStr.

(** ** [_remove_planet] *)

Definition planets : string := "bcdefghijB".

(** The loop [for planet in planets: if name.endswith(' %s' % planet):
    return name[:-2]]; [None] when the loop ends without returning. *)
Fixpoint planet_loop (ps : list ascii) (name : string) : option string :=
  match ps with
  | [] => None
  | planet :: ps' =>
      if PyStr.endswith name (String " " (String planet ""))
      then Some (PyStr.drop_last 2 name)
      else planet_loop ps' name
  end.

Definition _remove_planet (name : string) : string :=
  match planet_loop (list_ascii_of_string planets) name with
  | Some r => r
  | None =>
      if PyStr.endswith name ".01" || PyStr.endswith name ".02"
         || PyStr.endswith name ".2"
      then PyStr.drop_last 3 name
      else name
  end.

(** ** Exceptions, results and the trace of effects *)

Inductive exn : Type :=
| AttributeError   (* attribute access on [None] *)
| TypeError        (* subscript of [None], iteration over a 0-d array *)
| ValueError       (* the time library rejects a string *)
| OSError          (* the catalogue file cannot be read *)
| ArchiveError.    (* raised inside the archive library *)

Inductive result (A : Type) : Type :=
| Ok (a : A)
| Raise (e : exn).
Arguments Ok {A} a.
Arguments Raise {A} e.

(** The [surveys] argument of [query_surveys]: one name or a list. *)
Inductive surveys_arg : Type :=
| OneSurvey (name : string)
| SurveyList (names : list string).

Inductive event : Type :=
| Print (text : string)
| QueryMain (target : string)
| QuerySurveys (surveys : surveys_arg) (target : string)
| RetrieveData (datasets : list string) (destination : option string)
| LoadTxt (fname : string).

(** A computation writes events and either returns or raises. *)
Definition M (A : Type) : Type := (list event * result A)%type.

Definition ret {A} (a : A) : M A := ([], Ok a).

Definition bind {A B} (m : M A) (k : A → M B) : M B :=
  match m with
  | (t, Ok a) => let '(t', r) := k a in (t ++ t', r)
  | (t, Raise e) => (t, Raise e)
  end.

Definition raise {A} (e : exn) : M A := ([], Raise e).

Definition emit (e : event) : M unit := ([e], Ok tt).

(** [try: body  except: handler] with a bare [except] *)
Definition try_except {A} (body handler : M A) : M A :=
  match body with
  | (t, Ok a) => (t, Ok a)
  | (t, Raise _) => let '(t', r) := handler in (t ++ t', r)
  end.

Declare Scope py_scope.
Delimit Scope py_scope with py.
Notation "x <- m ;; k" := (bind m (fun x => k))
  (at level 100, m at next level, right associativity) : py_scope.
Notation "m ;;; k" := (bind m (fun _ => k))
  (at level 100, right associativity) : py_scope.
Local Open Scope py_scope.

(** [for x in l: body x] *)
Fixpoint for_each {A} (l : list A) (body : A → M unit) : M unit :=
  match l with
  | [] => ret tt
  | x :: l' => body x ;;; for_each l' body
  end.

Definition trace_of {A} (m : M A) : list event := fst m.
Definition outcome {A} (m : M A) : result A := snd m.

(** [print(text)]: the event carries the text before the final newline. *)
Definition print (text : string) : M unit := emit (Print text).

(** ** Tables and arrays *)

(** A Python float: a number, an infinity, or NaN.  Numbers are rationals
    (every finite float is one); rounding plays no part in the client. *)
Inductive pyfloat : Type :=
| NegInf
| Finite (q : Q)
| PosInf
| NaN.

(** [x < y] on floats: [False] as soon as one side is NaN. *)
Definition flt (x y : pyfloat) : bool :=
  match x, y with
  | NaN, _ | _, NaN => false
  | NegInf, NegInf => false
  | NegInf, _ => true
  | _, NegInf => false
  | PosInf, _ => false
  | Finite _, PosInf => true
  | Finite a, Finite b => negb (Qle_bool b a)
  end.

(** [x <= y] on floats: [False] as soon as one side is NaN. *)
Definition fle (x y : pyfloat) : bool :=
  match x, y with
  | NaN, _ | _, NaN => false
  | NegInf, _ => true
  | _, NegInf => false
  | _, PosInf => true
  | PosInf, Finite _ => false
  | Finite a, Finite b => Qle_bool a b
  end.

(** A row of the table answered by [query_surveys]; the columns the client
    reads are ['Instrument'], ['Date Obs'], ['SNR (spectra)'] and
    ['ARCFILE']. *)
Record Row : Type := {
  Instrument : string;
  Date_Obs : string;
  SNR_spectra : pyfloat;
  ARCFILE : string
}.

(** A row of the table answered by [query_main]; only ['Instrument'] is
    read. *)
Record MainRow : Type := { main_Instrument : string }.

(** What a query call does: a table, [None] (no result), or an exception. *)
Inductive qresult (A : Type) : Type :=
| QTable (rows : list A)
| QNone
| QRaise (e : exn).
Arguments QTable {A} rows.
Arguments QNone {A}.
Arguments QRaise {A} e.

(** [np.sum] of a boolean array *)
Definition np_sum (mask : list bool) : Z :=
  foldr (fun (b : bool) acc => (if b then 1 else 0) + acc) 0 mask.

(** [np.unique(a, return_counts=True)]: the distinct values with their
    numbers of occurrences.  numpy sorts the values; the client only feeds
    them to a dict, where the order is not observable. *)
Definition np_unique_counts (a : list string) : list (string * Z) :=
  map (fun x => (x, np_sum (map (String.eqb x) a))) (remove_dups a).

(** [table.remove_rows(mask)] with a boolean mask: the rows whose mask entry
    is [True] are deleted, the others keep their order. *)
Fixpoint remove_rows {A} (mask : list bool) (rows : list A) : list A :=
  match mask, rows with
  | b :: mask', r :: rows' =>
      if b then remove_rows mask' rows' else r :: remove_rows mask' rows'
  | _, _ => rows
  end.

(** [not SNR] for a parameter that is [None] or a float: zero is falsy,
    the infinities and NaN are truthy. *)
Definition falsy_num (o : option pyfloat) : bool :=
  match o with
  | None => true
  | Some (Finite q) => (Qnum q =? 0)
  | Some _ => false
  end.

(** The time library.  [Time(s)] on one string parses it to an instant on a
    linear scale, or raises ([None]).  [Time(column)] on a whole column is
    one call of its own: the library first accepts or rejects the column as
    a whole ([accepts_column]; astropy 6 to 8 reject a column of no rows,
    astropy 5.2 accepts it), and the instants of an accepted column are those
    of its cells. *)
Record TimeLib : Type := {
  parse_time :> string → option Z;
  accepts_column : list string → bool
}.

(** The value of [np.loadtxt]: a 0-d array (one string) or a 1-d array. *)
Inductive ndarray : Type :=
| Arr0 (item : string)
| Arr1 (items : list string).

(** [self.instruments] *)
Definition instruments : list string := ["FEROS"; "UVES"; "HARPS"; "ESPRESSO"].

(** ** The class [ESOquery] *)

Section ESOquery.

(** The time library behind [Time]. *)
Variable Time : TimeLib.

(** The archive library behind [self.eso]. *)
Variable eso_query_main : string → qresult MainRow.
Variable eso_query_surveys : surveys_arg → string → qresult Row.
Variable eso_retrieve_data : list string → option string → option exn.

(** The star names numpy parses out of the file at a path: the first
    tab-delimited column of every row after the header; [None] when the
    file cannot be read. *)
Variable catalog : string → option (list string).

(** A Python variable that holds a string or a [Time] object. *)
Inductive date_val : Type :=
| DStr (s : string)
| DTime (t : Z).

(** [Time(v)]: parses a string, copies a [Time]. *)
Definition Time_of (v : date_val) : M Z :=
  match v with
  | DStr s => match Time s with Some t => ret t | None => raise ValueError end
  | DTime t => ret t
  end.

(** [Time(column)]: one call on the whole column; it raises when the
    library rejects the column or cannot read one of its cells. *)
Definition Time_column (cells : list string) : M (list Z) :=
  if accepts_column Time cells
  then match mapM Time cells with
       | Some ts => ret ts
       | None => raise ValueError
       end
  else raise ValueError.

Definition query_main (star : string) : M (option (list MainRow)) :=
  emit (QueryMain star) ;;;
  match eso_query_main star with
  | QTable rows => ret (Some rows)
  | QNone => ret None
  | QRaise e => raise e
  end.

Definition query_surveys (surveys : surveys_arg) (star : string)
  : M (option (list Row)) :=
  emit (QuerySurveys surveys star) ;;;
  match eso_query_surveys surveys star with
  | QTable rows => ret (Some rows)
  | QNone => ret None
  | QRaise e => raise e
  end.

Definition retrieve_data (datasets : list string) (destination : option string)
  : M unit :=
  emit (RetrieveData datasets destination) ;;;
  match eso_retrieve_data datasets destination with
  | None => ret tt
  | Some e => raise e
  end.

(** [np.loadtxt('...', dtype=str, delimiter='\t', usecols=[0], skiprows=1)]:
    with the default [ndmin=0] the one-column result is squeezed, so a
    single data row gives a 0-d array. *)
Definition np_loadtxt (fname : string) : M ndarray :=
  emit (LoadTxt fname) ;;;
  match catalog fname with
  | None => raise OSError
  | Some [name] => ret (Arr0 name)
  | Some names => ret (Arr1 names)
  end.

(** Evaluating [obj.attr] or [obj[key]] when [obj] may be [None]. *)
Definition attr_of {A} (obj : option A) : M A :=
  match obj with Some a => ret a | None => raise AttributeError end.
Definition subscript_of {A} (obj : option A) : M A :=
  match obj with Some a => ret a | None => raise TypeError end.

(** [if not date: date = Time('1990-01-23')] followed by
    [date = Time(date)] *)
Definition date_or_default (date : option string) : M Z :=
  date <- (if PyStr.falsy date
           then t <- Time_of (DStr "1990-01-23") ;; ret (DTime t)
           else ret (DStr (default "" date))) ;;
  Time_of date.

(** [if not SNR: SNR = 30] *)
Definition SNR_or_default (SNR : option pyfloat) : pyfloat :=
  if falsy_num SNR then Finite 30 else default (Finite 30) SNR.

Definition searchInstruments (star : string) : M (gmap string Z) :=
  searchResult <- query_main star ;;
  tbl <- subscript_of searchResult ;;
  let instruments := np_unique_counts (map main_Instrument tbl) in
  ret (foldl (fun (d : gmap string Z) '(j, n) => <[j := n]> d) ∅ instruments).

Definition searchStar (star : string) (instrument date : option string)
    (SNR : option pyfloat) : M (list Row) :=
  date <- date_or_default date ;;
  let SNR := SNR_or_default SNR in
  search <- (if PyStr.truthy instrument
             then query_surveys (OneSurvey (default "" instrument)) star
             else query_surveys (SurveyList instruments) star) ;;
  tbl <- attr_of search ;;
  obs <- Time_column (map Date_Obs tbl) ;;
  let tbl := remove_rows (map (fun t => t <? date) obs) tbl in
  let tbl := remove_rows (map (fun r => flt (SNR_spectra r) SNR) tbl) tbl in
  ret tbl.

Definition searchInstrumentSpectra (star : string) (instrument : option string)
  : M (gmap string Z) :=
  searchStar_ <- searchStar star None None None ;;
  let instrumentDict : gmap string Z := ∅ in
  if PyStr.truthy instrument
  then
    let i := default "" instrument in
    let number := np_sum (map (fun r => String.eqb (Instrument r) i) searchStar_) in
    ret (<[i := number]> instrumentDict)
  else
    ret (foldl (fun (d : gmap string Z) j =>
                  <[j := np_sum (map (fun r => String.eqb (Instrument r) j)
                                     searchStar_)]> d)
               instrumentDict instruments).

Definition searchByDate (star : string) (instrument date : option string)
  : M (list Row) :=
  date <- date_or_default date ;;
  search <- searchStar star instrument None None ;;
  obs <- Time_column (map Date_Obs search) ;;
  ret (remove_rows (map (fun t => t <? date) obs) search).

Definition searchBySNR (star : string) (instrument : option string)
    (SNR : option pyfloat) : M (list Row) :=
  let SNR := SNR_or_default SNR in
  search <- searchStar star instrument None None ;;
  ret (remove_rows (map (fun r => flt (SNR_spectra r) SNR) search) search).

Definition _searchAndDownload (star : string)
    (instrument downloadPath date : option string) (SNR : option pyfloat) : M unit :=
  tbl <- searchStar star instrument date SNR ;;
  let starARCFILE := map ARCFILE tbl in
  if PyStr.truthy downloadPath
  then retrieve_data starARCFILE downloadPath
  else retrieve_data starARCFILE None.

(** The loop shared, word for word, by [_getData], [getALLdata] and the
    four [get<INSTRUMENT>data] methods. *)
Definition download_loop (checkInstruments : gmap string Z) (js : list string)
    (star : string) (downloadPath date : option string) (SNR : option pyfloat)
  : M unit :=
  for_each js (fun j =>
    print (PyStr.nl +:+ "*** Searching for " +:+ j +:+ " results ***" +:+ PyStr.nl) ;;;
    if bool_decide (j ∈ dom checkInstruments)
    then _searchAndDownload star (Some j) downloadPath date SNR
    else print ("No " +:+ j +:+ " data" +:+ PyStr.nl)) ;;;
  print (PyStr.nl +:+ "*** Done ***" +:+ PyStr.nl).

Definition _getData (star instrument : string)
    (downloadPath date : option string) (SNR : option pyfloat) : M unit :=
  checkInstruments <- searchInstruments star ;;
  download_loop checkInstruments [instrument] star downloadPath date SNR.

Definition getALLdata (star : string)
    (downloadPath date : option string) (SNR : option pyfloat) : M unit :=
  checkInstruments <- searchInstruments star ;;
  download_loop checkInstruments instruments star downloadPath date SNR.

Definition getFEROSdata (star : string)
    (downloadPath date : option string) (SNR : option pyfloat) : M unit :=
  checkInstruments <- searchInstruments star ;;
  download_loop checkInstruments ["FEROS"] star downloadPath date SNR.

Definition getUVESdata (star : string)
    (downloadPath date : option string) (SNR : option pyfloat) : M unit :=
  checkInstruments <- searchInstruments star ;;
  download_loop checkInstruments ["UVES"] star downloadPath date SNR.

Definition getHARPSdata (star : string)
    (downloadPath date : option string) (SNR : option pyfloat) : M unit :=
  checkInstruments <- searchInstruments star ;;
  download_loop checkInstruments ["HARPS"] star downloadPath date SNR.

Definition getESPRESSOdata (star : string)
    (downloadPath date : option string) (SNR : option pyfloat) : M unit :=
  checkInstruments <- searchInstruments star ;;
  download_loop checkInstruments ["ESPRESSO"] star downloadPath date SNR.

(** [enumerate(stars)]: a 0-d array cannot be iterated. *)
Definition iterate (a : ndarray) : M (list string) :=
  match a with
  | Arr0 _ => raise TypeError
  | Arr1 items => ret items
  end.

(** The body of the loop of [readList], for the name [j]. *)
Definition readList_body (instrument date : option string) (SNR : option pyfloat)
    (j : string) : M unit :=
  print ("*** " +:+ j +:+ " ***") ;;;
  try_except
    (star <- searchStar j instrument date SNR ;; print "")
    (print ("     Star not found in archive!" +:+ PyStr.nl)).

Definition readList (filename : string)
    (instrument downloadPath date : option string) (SNR : option pyfloat)
  : M ndarray :=
  stars <- np_loadtxt "WEBSITE_online.rdb" ;;
  items <- iterate stars ;;
  for_each items (readList_body instrument date SNR) ;;;
  ret stars.

End ESOquery.

(** ** A stub environment, used to run the client on concrete inputs *)

Module Stub.

Definition digit (c : ascii) : option Z :=
  let n := Z.of_nat (nat_of_ascii c) in
  if (48 <=? n) && (n <=? 57) then Some (n - 48) else None.

(** The decimal number written by a list of digit characters. *)
Fixpoint number (acc : Z) (cs : list ascii) : option Z :=
  match cs with
  | [] => Some acc
  | c :: cs' =>
      match digit c with
      | Some d => number (10 * acc + d) cs'
      | None => None
      end
  end.

Definition in_range (lo hi : Z) (o : option Z) : option Z :=
  match o with
  | Some v => if (lo <=? v) && (v <=? hi) then Some v else None
  | None => None
  end.

(** An order-preserving stand-in for the parser of the time library: the
    timestamps [YYYY-MM-DD] and [YYYY-MM-DDThh:mm:ss] are read as the
    integer [YYYYMMDDhhmmss]; anything else is rejected. *)
Definition parse_iso (s : string) : option Z :=
  let field lo hi cs := in_range lo hi (number 0 cs) in
  let date y1 y2 y3 y4 m1 m2 d1 d2 :=
    match number 0 [y1; y2; y3; y4], field 1 12 [m1; m2], field 1 31 [d1; d2] with
    | Some y, Some m, Some d => Some ((y * 100 + m) * 100 + d)
    | _, _, _ => None
    end in
  match list_ascii_of_string s with
  | [y1; y2; y3; y4; "-"; m1; m2; "-"; d1; d2]%char =>
      match date y1 y2 y3 y4 m1 m2 d1 d2 with
      | Some day => Some (day * 1000000)
      | None => None
      end
  | [y1; y2; y3; y4; "-"; m1; m2; "-"; d1; d2; "T";
     h1; h2; ":"; n1; n2; ":"; s1; s2]%char =>
      match date y1 y2 y3 y4 m1 m2 d1 d2,
            field 0 23 [h1; h2], field 0 59 [n1; n2], field 0 60 [s1; s2] with
      | Some day, Some h, Some n, Some sec =>
          Some (((day * 100 + h) * 100 + n) * 100 + sec)
      | _, _, _, _ => None
      end
  | _ => None
  end.

(** The stand-in for the time library rejects a column of no rows. *)
Definition Time : TimeLib :=
  {| parse_time := parse_iso;
     accepts_column := fun cells => match cells with [] => false | _ => true end |}.

Definition row (i d : string) (snr : pyfloat) (f : string) : Row :=
  {| Instrument := i; Date_Obs := d; SNR_spectra := snr; ARCFILE := f |}.

Definition r25 : Row := row "HARPS" "2004-05-28T08:32:11" (Finite 25) "ADP.2004-05-28.fits".
Definition r35 : Row := row "HARPS" "2005-01-02T03:04:05" (Finite 35) "ADP.2005-01-02.fits".
Definition f40 : Row := row "FEROS" "2010-10-10" (Finite 40) "ADP.2010-10-10.fits".
Definition old25 : Row := row "HARPS" "1985-03-01" (Finite 25) "ADP.1985-03-01.fits".
Definition old35 : Row := row "HARPS" "1985-03-02" (Finite 35) "ADP.1985-03-02.fits".

Definition keep_surveys (surveys : surveys_arg) (rows : list Row) : list Row :=
  match surveys with
  | OneSurvey s => filter (fun r => Instrument r = s) rows
  | SurveyList l => filter (fun r => Instrument r ∈ l) rows
  end.

(** An archive that knows the stars [X], [Old] and [51 Peg]; any other
    target has no result. *)
Definition query_surveys (surveys : surveys_arg) (star : string) : qresult Row :=
  if String.eqb star "X" then QTable (keep_surveys surveys [r25; r35])
  else if String.eqb star "Old" then QTable (keep_surveys surveys [old25; old35])
  else if String.eqb star "51 Peg" then QTable (keep_surveys surveys [r35; f40; r25])
  else if String.eqb star "Down" then QRaise ArchiveError
  else QNone.

Definition nan06 : Row := row "HARPS" "2006-03-04" NaN "ADP.2006-03-04.fits".

(** An archive with a row of [X] whose signal-to-noise ratio is NaN. *)
Definition query_surveys_nan (surveys : surveys_arg) (star : string)
  : qresult Row :=
  if String.eqb star "X" then QTable [nan06; r25; r35] else QNone.

(** An archive that answers the two rows of [X] in the other order. *)
Definition query_surveys_rev (surveys : surveys_arg) (star : string)
  : qresult Row :=
  if String.eqb star "X" then QTable [r35; r25] else QNone.

(** An archive that answers a table of no rows. *)
Definition query_surveys_empty (surveys : surveys_arg) (star : string)
  : qresult Row := QTable [].

(** An archive whose two rows for [X] were observed in 1985. *)
Definition query_surveys_old (surveys : surveys_arg) (star : string)
  : qresult Row :=
  if String.eqb star "X" then QTable [old25; old35] else QNone.

Definition query_main (star : string) : qresult MainRow :=
  if String.eqb star "X" then
    QTable [ {| main_Instrument := "HARPS" |}; {| main_Instrument := "HARPS" |} ]
  else if String.eqb star "51 Peg" then
    QTable [ {| main_Instrument := "HARPS" |}; {| main_Instrument := "FEROS" |};
             {| main_Instrument := "HARPS" |} ]
  else QNone.

Definition retrieve_data (datasets : list string) (destination : option string)
  : option exn := None.

(** A file system with one catalogue at the path the client reads and
    another one elsewhere. *)
Definition catalog3 (fname : string) : option (list string) :=
  if String.eqb fname "WEBSITE_online.rdb" then Some ["X"; "Nowhere"; "51 Peg"]
  else if String.eqb fname "other.rdb" then Some ["Old"]
  else None.

Definition catalog1 (fname : string) : option (list string) :=
  if String.eqb fname "WEBSITE_online.rdb" then Some ["51 Peg"] else None.

End Stub.


(** ** Vocabulary of the statements *)

(** The post-filters of [searchStar] as predicates on a row: observed not
    before [d], signal-to-noise not below [t]. *)
Definition passes_date (Time : TimeLib) (d : Z) (r : Row) : bool :=
  match Time (Date_Obs r) with
  | Some t => negb (t <? d)
  | None => false
  end.

Definition passes_SNR (t : pyfloat) (r : Row) : bool :=
  negb (flt (SNR_spectra r) t).

Definition parses (Time : TimeLib) (r : Row) : bool :=
  match Time (Date_Obs r) with Some _ => true | None => false end.

(** The time library reads the ['Date Obs'] column of a table: it accepts
    the column and parses every cell. *)
Definition reads_rows (Time : TimeLib) (tbl : list Row) : bool :=
  accepts_column Time (map Date_Obs tbl) && forallb (parses Time) tbl.

(** The string handed to [Time] for the date threshold, and the [surveys]
    argument of the query. *)
Definition date_text (date : option string) : string :=
  if PyStr.falsy date then "1990-01-23" else default "" date.

Definition surveys_of (instrument : option string) : surveys_arg :=
  if PyStr.truthy instrument then OneSurvey (default "" instrument)
  else SurveyList instruments.

(** The least element of a list, [None] for the empty list. *)
Fixpoint minimum {A} (leb : A → A → bool) (l : list A) : option A :=
  match l with
  | [] => None
  | x :: l' =>
      match minimum leb l' with
      | None => Some x
      | Some m => Some (if leb x m then x else m)
      end
  end.

(** The least signal-to-noise ratio among the rows whose ratio is a number. *)
Definition min_SNR (R : list Row) : option Q :=
  minimum Qle_bool
    (omap (fun r => match SNR_spectra r with Finite q => Some q | _ => None end)
       R).

Definition min_date (Time : TimeLib) (R : list Row) : option Z :=
  minimum Z.leb (omap (fun r => Time (Date_Obs r)) R).

(** The bulk retrievals and the console lines recorded in a trace. *)
Definition retrieve_calls (t : list event) : list (list string * option string) :=
  omap (fun e => match e with
                 | RetrieveData ds dest => Some (ds, dest)
                 | _ => None
                 end) t.

Definition printed (t : list event) : list string :=
  omap (fun e => match e with Print text => Some text | _ => None end) t.

Definition occurrences (text : string) (lines : list string) : nat :=
  List.length (List.filter (String.eqb text) lines).

(** The three console lines of the [get...data] methods. *)
Definition searching (j : string) : string :=
  PyStr.nl +:+ "*** Searching for " +:+ j +:+ " results ***" +:+ PyStr.nl.
Definition no_data (j : string) : string := "No " +:+ j +:+ " data" +:+ PyStr.nl.
Definition done_line : string := PyStr.nl +:+ "*** Done ***" +:+ PyStr.nl.

(** The console lines of [readList], and the paths handed to [np.loadtxt]. *)
Definition star_line (j : string) : string := "*** " +:+ j +:+ " ***".
Definition not_found_line : string :=
  "     Star not found in archive!" +:+ PyStr.nl.

Definition loaded (t : list event) : list string :=
  omap (fun e => match e with LoadTxt f => Some f | _ => None end) t.

Definition raises {A} (m : M A) : bool :=
  match outcome m with Ok _ => false | Raise _ => true end.

(** [np.sum(table['Instrument'] == j)]: the number of rows of instrument
    [j]. *)
Definition spectra_count (j : string) (R : list Row) : Z :=
  np_sum (map (fun r => String.eqb (Instrument r) j) R).

(** The sum of the counts held by an instrument dict. *)
Definition total_count (d : gmap string Z) : Z :=
  map_fold (fun _ n acc => n + acc) 0 d.

(** The suffixes [_remove_planet] looks for: a blank and a planet letter,
    or one of the three numeric endings. *)
Definition recognised_suffixes : list string :=
  map (fun planet => String " " (String planet "")) (list_ascii_of_string planets)
  ++ [".01"; ".02"; ".2"].

(** The survey queries recorded in a trace. *)
Definition survey_queries (t : list event) : list (surveys_arg * string) :=
  omap (fun e => match e with
                 | QuerySurveys sv star => Some (sv, star)
                 | _ => None
                 end) t.

(** What one turn of the loop of the [get...data] methods prints for the
    instrument [j], given the discovery dict. *)
Definition loop_lines (ci : gmap string Z) (j : string) : list string :=
  searching j :: (if bool_decide (j ∈ dom ci) then [] else [no_data j]).

(** * Properties *)

(** ** Suffixes and slices *)

Section StringFacts.

Lemma length_append (p s : string) :
  String.length (p +:+ s) = (String.length p + String.length s)%nat.
Proof. induction p as [|a p IH]; simpl; [reflexivity | now rewrite IH]. Qed.

Lemma substring_append_skip (p s : string) (n k : nat) :
  substring (String.length p + n) k (p +:+ s) = substring n k s.
Proof. induction p as [|a p IH]; simpl; [reflexivity | exact IH]. Qed.

Lemma substring_append_prefix (p s : string) :
  substring 0 (String.length p) (p +:+ s) = p.
Proof. induction p as [|a p IH]; simpl; [now destruct s | now rewrite IH]. Qed.

(** A suffix test on [p + s] only looks at [s] when [s] is long enough. *)
Lemma endswith_append (p s suffix : string) :
  (String.length suffix <= String.length s)%nat →
  PyStr.endswith (p +:+ s) suffix = PyStr.endswith s suffix.
Proof.
  intros Hle. unfold PyStr.endswith. rewrite length_append.
  replace (String.length p + String.length s - String.length suffix)%nat
    with (String.length p + (String.length s - String.length suffix))%nat by lia.
  rewrite substring_append_skip.
  destruct (Nat.leb_spec (String.length suffix) (String.length s)); [|lia].
  destruct (Nat.leb_spec (String.length suffix)
              (String.length p + String.length s)); [reflexivity | lia].
Qed.

(** [(p + s)[:-k]] is [p] when [s] has [k] characters. *)
Lemma drop_last_append (p s : string) :
  PyStr.drop_last (String.length s) (p +:+ s) = p.
Proof.
  unfold PyStr.drop_last. rewrite length_append.
  replace (String.length p + String.length s - String.length s)%nat
    with (String.length p) by lia.
  apply substring_append_prefix.
Qed.

Lemma planet_loop_append (ps : list ascii) (p s : string) :
  (2 <= String.length s)%nat →
  planet_loop ps (p +:+ s) =
  match planet_loop ps s with
  | Some _ => Some (PyStr.drop_last 2 (p +:+ s))
  | None => None
  end.
Proof.
  intros Hs. induction ps as [|c ps IH]; simpl; [reflexivity|].
  rewrite endswith_append by exact Hs.
  destruct (PyStr.endswith s _); [reflexivity | exact IH].
Qed.

End StringFacts.

(** ** [_remove_planet] *)

(** The suffixes [.01] and [.02] are cut off, whatever stands before them. *)
Lemma remove_planet_dot01_dot02 (p : string) :
  _remove_planet (p +:+ ".01") = p ∧ _remove_planet (p +:+ ".02") = p.
Proof.
  unfold _remove_planet. split.
  - rewrite planet_loop_append by (simpl; lia). simpl.
    rewrite !endswith_append by (simpl; lia). simpl.
    apply (drop_last_append p ".01").
  - rewrite planet_loop_append by (simpl; lia). simpl.
    rewrite !endswith_append by (simpl; lia). simpl.
    apply (drop_last_append p ".02").
Qed.

(** C2. On a name ending in [.2] the code cuts three characters, not two:
    for every prefix [p] and character [c], [_remove_planet (p c ".2")] is
    [p], although removing exactly the suffix [.2] would give [p c]; so
    ["HD 1234.2"] becomes ["HD 123"].  Only the two-character name [".2"]
    loses exactly its suffix.  Names ending in [.01] or [.02] do lose exactly
    these three characters. *)
Theorem remove_planet_dot2_cuts_three :
  (∀ (p : string) (c : ascii),
     _remove_planet (p +:+ String c ".2") = p
     ∧ _remove_planet (p +:+ String c ".2") ≠ p +:+ String c "")
  ∧ _remove_planet "HD 1234.2" = "HD 123"
  ∧ _remove_planet ".2" = ""
  ∧ (∀ p : string, _remove_planet (p +:+ ".01") = p
                   ∧ _remove_planet (p +:+ ".02") = p).
Proof.
  assert (Hcut : ∀ (p : string) (c : ascii),
             _remove_planet (p +:+ String c ".2") = p).
  { intros p c. unfold _remove_planet.
    rewrite planet_loop_append by (simpl; lia).
    rewrite !endswith_append by (simpl; lia).
    change (planet_loop (list_ascii_of_string planets) (String c ".2"))
      with (@None string).
    change (PyStr.endswith (String c ".2") ".2") with true.
    rewrite orb_true_r.
    apply (drop_last_append p (String c ".2")). }
  split; [|split; [reflexivity | split; [reflexivity |]]].
  - intros p c. split; [apply Hcut|].
    rewrite Hcut. intros Heq.
    apply (f_equal String.length) in Heq.
    rewrite length_append in Heq. simpl in Heq. lia.
  - apply remove_planet_dot01_dot02.
Qed.

(** C9. The reference examples: ["51 Peg b"] becomes ["51 Peg"],
    ["HD 1234.01"] becomes ["HD 1234"], and ["Vega"], which has no
    recognised suffix, is returned unchanged. *)
Theorem remove_planet_examples :
  _remove_planet "51 Peg b" = "51 Peg"
  ∧ _remove_planet "HD 1234.01" = "HD 1234"
  ∧ _remove_planet "Vega" = "Vega".
Proof. repeat split; reflexivity. Qed.

(** ** Computations *)

Lemma bind_ok {A B} (t : list event) (a : A) (k : A → M B) :
  bind (t, Ok a) k = (t ++ fst (k a), snd (k a)).
Proof. simpl. now destruct (k a). Qed.

Lemma bind_raise {A B} (t : list event) (e : exn) (k : A → M B) :
  bind (t, Raise e) k = (t, Raise e).
Proof. reflexivity. Qed.

Lemma bind_ret_l {A B} (a : A) (k : A → M B) : bind (ret a) k = k a.
Proof. unfold ret. rewrite bind_ok. now destruct (k a). Qed.

Lemma bind_emit {B} (e : event) (k : unit → M B) :
  bind (emit e) k = (e :: fst (k tt), snd (k tt)).
Proof. unfold emit. now rewrite bind_ok. Qed.

(** ** Masks and filters *)

Lemma remove_rows_map {A} (f : A → bool) (rows : list A) :
  remove_rows (map f rows) rows = List.filter (fun r => negb (f r)) rows.
Proof.
  induction rows as [|r rows IH]; simpl; [reflexivity|].
  destruct (f r); simpl; now rewrite IH.
Qed.

Lemma filter_twice {A} (f g : A → bool) (l : list A) :
  List.filter g (List.filter f l) = List.filter (fun x => f x && g x) l.
Proof.
  induction l as [|x l IH]; simpl; [reflexivity|].
  destruct (f x); simpl; [destruct (g x)|]; now rewrite IH.
Qed.

Lemma minimum_member {A} (leb : A → A → bool) (l : list A) (m : A) :
  minimum leb l = Some m → m ∈ l.
Proof.
  revert m. induction l as [|x l IH]; simpl; intros m Hm; [discriminate|].
  destruct (minimum leb l) as [m'|].
  - injection Hm as <-. destruct (leb x m'); [left | right; now apply IH].
  - injection Hm as <-. left.
Qed.

Lemma minimum_none {A} (leb : A → A → bool) (l : list A) :
  minimum leb l = None → l = [].
Proof. destruct l as [|x l]; simpl; [easy|]. now destruct (minimum leb l). Qed.

(** Lowering the right-hand side of [<] keeps it false. *)
Lemma flt_mono (t1 t2 x : pyfloat) :
  fle t1 t2 = true → flt x t2 = false → flt x t1 = false.
Proof.
  destruct t1 as [|a| |], t2 as [|b| |], x as [|c| |]; simpl; try congruence.
  intros Hab Hbc. apply negb_false_iff in Hbc. apply negb_false_iff.
  apply Qle_bool_iff in Hab, Hbc. apply Qle_bool_iff.
  now apply Qle_trans with b.
Qed.

Lemma fle_refl (t : pyfloat) : t ≠ NaN → fle t t = true.
Proof.
  destruct t as [|a| |]; simpl; try congruence.
  intros _. apply Qle_bool_iff, Qle_refl.
Qed.

Lemma passes_SNR_not_below (t : pyfloat) (r : Row) :
  passes_SNR t r = true ↔ flt (SNR_spectra r) t = false.
Proof. unfold passes_SNR. apply negb_true_iff. Qed.

(** Between numbers, passing the filter is [t <= SNR]. *)
Lemma passes_SNR_le (t q : Q) (r : Row) :
  SNR_spectra r = Finite q →
  passes_SNR (Finite t) r = true ↔ (t <= q)%Q.
Proof.
  intros Hq. unfold passes_SNR. rewrite Hq. simpl.
  rewrite negb_involutive. apply Qle_bool_iff.
Qed.

Lemma passes_date_le (Time : TimeLib) (d : Z) (r : Row) :
  passes_date Time d r = true ↔ ∃ t, Time (Date_Obs r) = Some t ∧ d ≤ t.
Proof.
  unfold passes_date. destruct (Time (Date_Obs r)) as [t|].
  - rewrite negb_true_iff, Z.ltb_ge. split.
    + intros H. now exists t.
    + intros (t' & [= <-] & H). exact H.
  - split; [discriminate | now intros (t & [=] & _)].
Qed.

(** ** [searchStar] *)

Section SearchStarFacts.

Variable Time : TimeLib.
Variable eso_query_surveys : surveys_arg → string → qresult Row.

Lemma date_or_default_eq (date : option string) :
  date_or_default Time date =
  match Time (date_text date) with
  | Some d => ret d
  | None => raise ValueError
  end.
Proof.
  unfold date_or_default, date_text.
  destruct (PyStr.falsy date); simpl.
  - now destruct (Time "1990-01-23").
  - now destruct (Time (default "" date)).
Qed.

Lemma Time_column_eq (tbl : list Row) :
  Time_column Time (map Date_Obs tbl) =
  if reads_rows Time tbl
  then ret (map (fun r => default 0 (Time (Date_Obs r))) tbl)
  else raise ValueError.
Proof.
  unfold Time_column, reads_rows.
  assert (H : mapM Time (map Date_Obs tbl) =
              if forallb (parses Time) tbl
              then Some (map (fun r => default 0 (Time (Date_Obs r))) tbl)
              else None).
  { induction tbl as [|r tbl IH]; [reflexivity|].
    cbn [map forallb mapM]. unfold parses at 1.
    destruct (Time (Date_Obs r)) as [t|]; simpl; [|reflexivity].
    rewrite IH. now destruct (forallb (parses Time) tbl). }
  rewrite H. destruct (accepts_column Time (map Date_Obs tbl)); [|reflexivity].
  now destruct (forallb (parses Time) tbl).
Qed.

Lemma reads_rows_parses (tbl : list Row) :
  reads_rows Time tbl = true → forallb (parses Time) tbl = true.
Proof. unfold reads_rows. intros H. now apply andb_true_iff in H. Qed.

Lemma date_mask_filter (d : Z) (tbl : list Row) :
  forallb (parses Time) tbl = true →
  remove_rows (map (fun t => t <? d)
                 (map (fun r => default 0 (Time (Date_Obs r))) tbl)) tbl
  = List.filter (passes_date Time d) tbl.
Proof.
  intros Hp. rewrite map_map, remove_rows_map.
  apply filter_ext_in. intros r Hr.
  rewrite forallb_forall in Hp. specialize (Hp r Hr).
  unfold parses in Hp. unfold passes_date.
  now destruct (Time (Date_Obs r)).
Qed.

(** What one call of [searchStar] does, case by case. *)
Lemma searchStar_eq (star : string) (instrument date : option string)
    (SNR : option pyfloat) :
  searchStar Time eso_query_surveys star instrument date SNR =
  match Time (date_text date) with
  | None => ([], Raise ValueError)
  | Some d =>
      let q := [QuerySurveys (surveys_of instrument) star] in
      match eso_query_surveys (surveys_of instrument) star with
      | QRaise e => (q, Raise e)
      | QNone => (q, Raise AttributeError)
      | QTable tbl =>
          if reads_rows Time tbl
          then (q, Ok (List.filter
                         (fun r => passes_date Time d r
                                   && passes_SNR (SNR_or_default SNR) r) tbl))
          else (q, Raise ValueError)
      end
  end.
Proof.
  unfold searchStar. rewrite date_or_default_eq.
  destruct (Time (date_text date)) as [d|]; [|reflexivity].
  rewrite bind_ret_l. unfold surveys_of.
  assert (Hq : ∀ sv, query_surveys eso_query_surveys sv star =
               match eso_query_surveys sv star with
               | QTable rows => ([QuerySurveys sv star], Ok (Some rows))
               | QNone => ([QuerySurveys sv star], Ok None)
               | QRaise e => ([QuerySurveys sv star], Raise e)
               end).
  { intros sv. unfold query_surveys. rewrite bind_emit.
    now destruct (eso_query_surveys sv star). }
  set (sv := if PyStr.truthy instrument
             then OneSurvey (default "" instrument)
             else SurveyList instruments).
  replace (if PyStr.truthy instrument
           then query_surveys eso_query_surveys
                  (OneSurvey (default "" instrument)) star
           else query_surveys eso_query_surveys (SurveyList instruments) star)
    with (query_surveys eso_query_surveys sv star)
    by (unfold sv; now destruct (PyStr.truthy instrument)).
  rewrite Hq. cbv zeta.
  destruct (eso_query_surveys sv star) as [tbl| |e]; try reflexivity.
  rewrite bind_ok. cbn [attr_of]. rewrite bind_ret_l, Time_column_eq.
  destruct (reads_rows Time tbl) eqn:Hp; [|reflexivity].
  rewrite bind_ret_l.
  rewrite date_mask_filter by (now apply reads_rows_parses).
  rewrite remove_rows_map. unfold ret. cbn [fst snd].
  rewrite filter_twice. now rewrite app_nil_r.
Qed.

End SearchStarFacts.

(** What is not below the effective floor is not below the floor asked
    for. *)
Lemma SNR_or_default_floor (t x : pyfloat) :
  flt x (SNR_or_default (Some t)) = false → flt x t = false.
Proof.
  unfold SNR_or_default, falsy_num.
  destruct t as [|q| |]; cbn [default]; try easy.
  destruct (Z.eqb_spec (Qnum q) 0) as [Hz|_]; [|easy].
  apply flt_mono. simpl. apply Qle_bool_iff.
  unfold Qle. simpl. rewrite Hz. lia.
Qed.

Lemma date_text_given (d : string) : d ≠ "" → date_text (Some d) = d.
Proof.
  intros Hd. unfold date_text. simpl.
  destruct (String.eqb_spec d ""); [contradiction | reflexivity].
Qed.

(** [searchStar] returns only through the last line: the date threshold was
    parsed, the query answered a table and the time library read its
    ['Date Obs'] column; what it returns are the rows of the answer that pass both
    filters. *)
Lemma searchStar_inv (Time : TimeLib)
    (qs : surveys_arg → string → qresult Row) (star : string)
    (instrument date : option string) (SNR : option pyfloat)
    (tr : list event) (R : list Row) :
  searchStar Time qs star instrument date SNR = (tr, Ok R) →
  ∃ d tbl,
    Time (date_text date) = Some d
    ∧ qs (surveys_of instrument) star = QTable tbl
    ∧ reads_rows Time tbl = true
    ∧ tr = [QuerySurveys (surveys_of instrument) star]
    ∧ R = List.filter (fun r => passes_date Time d r
                                && passes_SNR (SNR_or_default SNR) r) tbl.
Proof.
  rewrite searchStar_eq.
  destruct (Time (date_text date)) as [d|]; [|discriminate]. cbv zeta.
  destruct (qs (surveys_of instrument) star) as [tbl| |e]; try discriminate.
  destruct (reads_rows Time tbl) eqn:Hp; [|discriminate].
  intros [= <- <-]. now exists d, tbl.
Qed.

(** The row with an unknown ratio is returned although [NaN >= 30] is false,
    and with NaN as the floor nothing is removed, although no ratio is
    [>= NaN]. *)
Lemma searchStar_nan_counterexample :
  searchStar Stub.Time Stub.query_surveys_nan "X" None None (Some (Finite 30))
  = ([QuerySurveys (SurveyList instruments) "X"], Ok [Stub.nan06; Stub.r35])
  ∧ fle (Finite 30) (SNR_spectra Stub.nan06) = false
  ∧ searchStar Stub.Time Stub.query_surveys "X" None None (Some NaN)
    = ([QuerySurveys (SurveyList instruments) "X"], Ok [Stub.r25; Stub.r35])
  ∧ fle NaN (SNR_spectra Stub.r25) = false.
Proof. vm_compute. repeat split; reflexivity. Qed.

(** C1, amended. Every row of the table returned by [searchStar(star,
    instrument, d, t)] has an observation date not earlier than [d] and a
    signal-to-noise ratio that is not below [t]: the test of the code is
    [SNR < t], which is false for a ratio that is NaN and for every ratio
    when [t] is NaN.  Between numbers this is [SNR >= t].  Said with minima,
    the table is empty or its least date is at least [d], and the least
    ratio among the numbers is at least [t].  The rows returned are exactly
    the rows of the query answer that pass both post-filters, in their
    order. *)
Theorem searchStar_rows_meet_thresholds (Time : TimeLib)
    (qs : surveys_arg → string → qresult Row) (star : string)
    (instrument date : option string) (SNR : option pyfloat)
    (tr : list event) (R : list Row) :
  searchStar Time qs star instrument date SNR = (tr, Ok R) →
  (∀ r, r ∈ R →
     (∀ t, SNR = Some t → flt (SNR_spectra r) t = false)
     ∧ (∀ t q, SNR = Some (Finite t) → SNR_spectra r = Finite q → (t <= q)%Q)
     ∧ (∀ d dv, date = Some d → d ≠ "" → Time d = Some dv →
          ∃ rv, Time (Date_Obs r) = Some rv ∧ dv ≤ rv))
  ∧ (∀ t m, SNR = Some (Finite t) → min_SNR R = Some m → (t <= m)%Q)
  ∧ (∀ d dv, date = Some d → d ≠ "" → Time d = Some dv →
       match min_date Time R with Some m => dv ≤ m | None => R = [] end)
  ∧ (∃ d tbl,
       Time (date_text date) = Some d
       ∧ qs (surveys_of instrument) star = QTable tbl
       ∧ R = List.filter (fun r => passes_date Time d r
                                   && passes_SNR (SNR_or_default SNR) r) tbl).
Proof.
  intros Hrun.
  destruct (searchStar_inv _ _ _ _ _ _ _ _ Hrun) as (d0 & tbl & Hd0 & Hq & _ & _ & HR).
  assert (Hrow : ∀ r, r ∈ R →
            passes_date Time d0 r = true
            ∧ passes_SNR (SNR_or_default SNR) r = true).
  { intros r Hr. rewrite HR in Hr. apply list_elem_of_In, filter_In in Hr.
    destruct Hr as [_ Hr]. now apply andb_true_iff in Hr. }
  assert (Hsnr : ∀ r t, r ∈ R → SNR = Some t → flt (SNR_spectra r) t = false).
  { intros r t Hr ->. apply SNR_or_default_floor, passes_SNR_not_below.
    now apply Hrow. }
  assert (Hnum : ∀ r t q, r ∈ R → SNR = Some (Finite t) →
            SNR_spectra r = Finite q → (t <= q)%Q).
  { intros r t q Hr Ht Hq'. apply (passes_SNR_le t q r Hq').
    apply passes_SNR_not_below. now apply (Hsnr r (Finite t)). }
  assert (Hdate : ∀ r d dv, r ∈ R → date = Some d → d ≠ "" → Time d = Some dv →
            ∃ rv, Time (Date_Obs r) = Some rv ∧ dv ≤ rv).
  { intros r d dv Hr -> Hne Hdv. rewrite date_text_given in Hd0 by exact Hne.
    assert (dv = d0) as -> by congruence.
    apply passes_date_le. now apply Hrow. }
  split; [|split; [|split]].
  - intros r Hr. split; [|split]; intros; eauto.
  - intros t m Ht Hm. unfold min_SNR in Hm.
    apply minimum_member, list_elem_of_omap in Hm.
    destruct Hm as (r & Hr & Hrm).
    destruct (SNR_spectra r) as [|q| |] eqn:Hq'; try discriminate.
    injection Hrm as ->. now apply (Hnum r t m Hr Ht).
  - intros d dv Hd Hne Hdv. unfold min_date.
    destruct (minimum Z.leb (omap _ R)) as [m|] eqn:Hm.
    + apply minimum_member, list_elem_of_omap in Hm.
      destruct Hm as (r & Hr & Hrm).
      destruct (Hdate r d dv Hr Hd Hne Hdv) as (rv & Hrv & Hle). congruence.
    + apply minimum_none in Hm. destruct R as [|r R']; [reflexivity|].
      destruct (Hdate r d dv ltac:(left) Hd Hne Hdv) as (rv & Hrv & _).
      simpl in Hm. rewrite Hrv in Hm. discriminate.
  - now exists d0, tbl.
Qed.

Lemma searchStar_rows_meet_thresholds_witness :
  let tr := [QuerySurveys (SurveyList instruments) "51 Peg"] in
  let R := [Stub.r35; Stub.f40] in
  searchStar Stub.Time Stub.query_surveys "51 Peg" None
    (Some "2005-01-01") (Some (Finite 30)) = (tr, Ok R)
  ∧ ∀ r, r ∈ R →
      (∀ t, Some (Finite 30) = Some t → flt (SNR_spectra r) t = false)
      ∧ (∀ t q, Some (Finite 30) = Some (Finite t) → SNR_spectra r = Finite q →
           (t <= q)%Q)
      ∧ (∀ d dv, Some "2005-01-01" = Some d → d ≠ "" →
           Stub.Time d = Some dv →
           ∃ rv, Stub.Time (Date_Obs r) = Some rv ∧ dv ≤ rv).
Proof.
  intros tr R.
  assert (Hrun : searchStar Stub.Time Stub.query_surveys "51 Peg" None
                   (Some "2005-01-01") (Some (Finite 30)) = (tr, Ok R))
    by (vm_compute; reflexivity).
  split; [exact Hrun|].
  exact (proj1 (searchStar_rows_meet_thresholds Stub.Time Stub.query_surveys
                  "51 Peg" None (Some "2005-01-01") (Some (Finite 30)) tr R Hrun)).
Defined.

(** C10. A falsy threshold counts as absent: [searchStar] with [SNR=0] is
    [searchStar] with [SNR=30] (and with no [SNR] at all), so a zero floor
    cannot be requested and every row returned under [SNR=0] has a ratio
    that is not below 30 (at least 30 when it is a number); likewise the
    empty string as [date] is replaced by the default 1990-01-23. *)
Theorem searchStar_falsy_thresholds (Time : TimeLib)
    (qs : surveys_arg → string → qresult Row) (star : string)
    (instrument : option string) :
  (∀ date,
     searchStar Time qs star instrument date (Some (Finite 0))
     = searchStar Time qs star instrument date (Some (Finite 30))
     ∧ searchStar Time qs star instrument date (Some (Finite 0))
       = searchStar Time qs star instrument date None)
  ∧ (∀ date tr R r,
       searchStar Time qs star instrument date (Some (Finite 0)) = (tr, Ok R) →
       r ∈ R →
       flt (SNR_spectra r) (Finite 30) = false
       ∧ ∀ q, SNR_spectra r = Finite q → (30 <= q)%Q)
  ∧ (∀ SNR,
       searchStar Time qs star instrument (Some "") SNR
       = searchStar Time qs star instrument (Some "1990-01-23") SNR
       ∧ searchStar Time qs star instrument (Some "") SNR
         = searchStar Time qs star instrument None SNR).
Proof.
  split; [|split].
  - intros date. rewrite !searchStar_eq. split; reflexivity.
  - intros date tr R r Hrun Hr.
    destruct (searchStar_inv _ _ _ _ _ _ _ _ Hrun) as (d & tbl & _ & _ & _ & _ & ->).
    apply list_elem_of_In, filter_In in Hr. destruct Hr as [_ Hr].
    apply andb_true_iff in Hr. destruct Hr as [_ Hr].
    change (SNR_or_default (Some (Finite 0))) with (Finite 30) in Hr.
    split; [now apply passes_SNR_not_below|].
    intros q Hq. now apply (passes_SNR_le 30 q r Hq).
  - intros SNR. rewrite !searchStar_eq. split; reflexivity.
Qed.

Lemma searchStar_falsy_thresholds_witness :
  let R := [Stub.r35] in
  searchStar Stub.Time Stub.query_surveys "X" None None (Some (Finite 0))
  = ([QuerySurveys (SurveyList instruments) "X"], Ok R)
  ∧ ∀ r, r ∈ R →
      flt (SNR_spectra r) (Finite 30) = false
      ∧ ∀ q, SNR_spectra r = Finite q → (30 <= q)%Q.
Proof.
  intros R.
  assert (Hrun : searchStar Stub.Time Stub.query_surveys "X" None None (Some (Finite 0))
                 = ([QuerySurveys (SurveyList instruments) "X"], Ok R))
    by (vm_compute; reflexivity).
  split; [exact Hrun|]. intros r.
  exact (proj1 (proj2 (searchStar_falsy_thresholds Stub.Time Stub.query_surveys
                         "X" None)) None _ R r Hrun).
Defined.

(** ** [searchBySNR] *)

Lemma searchBySNR_eq (Time : TimeLib)
    (qs : surveys_arg → string → qresult Row) (star : string)
    (instrument : option string) (SNR : option pyfloat) :
  searchBySNR Time qs star instrument SNR =
  match searchStar Time qs star instrument None None with
  | (t, Ok R) => (t, Ok (List.filter (passes_SNR (SNR_or_default SNR)) R))
  | (t, Raise e) => (t, Raise e)
  end.
Proof.
  unfold searchBySNR.
  destruct (searchStar Time qs star instrument None None) as [t [R|e]];
    [|reflexivity].
  rewrite bind_ok, remove_rows_map. unfold ret. cbn [fst snd].
  now rewrite app_nil_r.
Qed.

(** The scenario of the specification does not hold for every answer of the
    archive: the two rows of [X] may have been observed before 1990-01-23;
    the date filter of [searchStar] then removes both, and the row with
    ratio 35 is not returned.  Nor is every returned ratio [>= t]: a row
    whose ratio is NaN is returned under the floor 30. *)
Lemma searchBySNR_scenario_counterexample :
  Stub.query_surveys_old (SurveyList instruments) "X"
  = QTable [Stub.old25; Stub.old35]
  ∧ SNR_spectra Stub.old25 = Finite 25
  ∧ SNR_spectra Stub.old35 = Finite 35
  ∧ outcome (searchBySNR Stub.Time Stub.query_surveys_old "X" None
               (Some (Finite 30))) = Ok []
  ∧ outcome (searchBySNR Stub.Time Stub.query_surveys_old "X" None
               (Some (Finite 30))) ≠ Ok [Stub.old35]
  ∧ outcome (searchBySNR Stub.Time Stub.query_surveys_nan "X" None
               (Some (Finite 30))) = Ok [Stub.nan06; Stub.r35]
  ∧ fle (Finite 30) (SNR_spectra Stub.nan06) = false.
Proof.
  assert (H : outcome (searchBySNR Stub.Time Stub.query_surveys_old "X" None
                         (Some (Finite 30))) = Ok [])
    by (vm_compute; reflexivity).
  split; [reflexivity|]. split; [reflexivity|]. split; [reflexivity|].
  split; [exact H|]. split; [rewrite H; discriminate|].
  split; vm_compute; reflexivity.
Qed.

Lemma Qle_bool_30 (q c : Q) :
  (q == c)%Q → Qle_bool 30 q = Qle_bool 30 c.
Proof. intros H. now rewrite H. Qed.

(** C3, amended. No row returned by [searchBySNR(star, instrument, t)] has
    a signal-to-noise ratio below [t] or below 30, the floor of the inner
    [searchStar]; between numbers the ratio is at least [t] and at least 30
    (a ratio that is NaN passes both tests).  When the query for ["X"]
    answers exactly two rows with ratios 25 and 35, in either order, the
    time library reads their ['Date Obs'] column, and the row with ratio 35
    was observed on or after 1990-01-23, then [searchBySNR("X", SNR=30)]
    returns exactly that row. *)
Theorem searchBySNR_floor (Time : TimeLib)
    (qs : surveys_arg → string → qresult Row) :
  (∀ star instrument SNR tr R r,
     searchBySNR Time qs star instrument SNR = (tr, Ok R) → r ∈ R →
     flt (SNR_spectra r) (Finite 30) = false
     ∧ (∀ t, SNR = Some t → flt (SNR_spectra r) t = false)
     ∧ (∀ q, SNR_spectra r = Finite q →
          (30 <= q)%Q ∧ ∀ t, SNR = Some (Finite t) → (t <= q)%Q))
  ∧ (∀ tbl r25 r35 q25 q35 d0 d25 d35,
       qs (SurveyList instruments) "X" = QTable tbl →
       tbl = [r25; r35] ∨ tbl = [r35; r25] →
       SNR_spectra r25 = Finite q25 → (q25 == 25)%Q →
       SNR_spectra r35 = Finite q35 → (q35 == 35)%Q →
       accepts_column Time (map Date_Obs tbl) = true →
       Time "1990-01-23" = Some d0 →
       Time (Date_Obs r25) = Some d25 → Time (Date_Obs r35) = Some d35 →
       d0 ≤ d35 →
       searchBySNR Time qs "X" None (Some (Finite 30))
       = ([QuerySurveys (SurveyList instruments) "X"], Ok [r35])).
Proof.
  split.
  - intros star instrument SNR tr R r Hrun Hr.
    rewrite searchBySNR_eq in Hrun.
    destruct (searchStar Time qs star instrument None None) as [t [R0|e]] eqn:Hs;
      [|discriminate].
    injection Hrun as <- <-.
    apply list_elem_of_In, filter_In in Hr. destruct Hr as [Hr0 Hr].
    destruct (searchStar_inv _ _ _ _ _ _ _ _ Hs) as (d & tbl & _ & _ & _ & _ & ->).
    apply filter_In in Hr0. destruct Hr0 as [_ Hr0].
    apply andb_true_iff in Hr0. destruct Hr0 as [_ Hr0].
    change (SNR_or_default None) with (Finite 30) in Hr0.
    apply passes_SNR_not_below in Hr0, Hr.
    assert (Ht : ∀ t, SNR = Some t → flt (SNR_spectra r) t = false)
      by (intros t' ->; now apply SNR_or_default_floor).
    split; [exact Hr0|]. split; [exact Ht|].
    intros q Hq. split.
    + apply (passes_SNR_le 30 q r Hq). now apply passes_SNR_not_below.
    + intros t' Ht'. apply (passes_SNR_le t' q r Hq).
      apply passes_SNR_not_below. now apply Ht.
  - intros tbl r25 r35 q25 q35 d0 d25 d35 Hq Htbl H25 E25 H35 E35 Hacc Hd0
      Hd25 Hd35 Hle.
    rewrite searchBySNR_eq, searchStar_eq.
    change (date_text None) with "1990-01-23". rewrite Hd0. cbv zeta.
    change (surveys_of None) with (SurveyList instruments). rewrite Hq.
    unfold reads_rows. rewrite Hacc.
    change (SNR_or_default None) with (Finite 30).
    change (SNR_or_default (Some (Finite 30))) with (Finite 30).
    assert (P25 : passes_SNR (Finite 30) r25 = false).
    { unfold passes_SNR. rewrite H25. simpl. rewrite negb_involutive.
      now rewrite (Qle_bool_30 q25 25 E25). }
    assert (P35 : passes_SNR (Finite 30) r35 = true).
    { unfold passes_SNR. rewrite H35. simpl. rewrite negb_involutive.
      now rewrite (Qle_bool_30 q35 35 E35). }
    assert (D35 : passes_date Time d0 r35 = true)
      by (apply passes_date_le; now exists d35).
    destruct Htbl as [-> | ->]; cbn [forallb andb]; unfold parses;
      rewrite Hd25, Hd35; cbn [andb List.filter];
      rewrite P25, P35, D35, ?andb_false_r; cbn [andb List.filter];
      rewrite P35; reflexivity.
Qed.

Lemma searchBySNR_floor_witness :
  searchBySNR Stub.Time Stub.query_surveys_rev "X" None (Some (Finite 30))
  = ([QuerySurveys (SurveyList instruments) "X"], Ok [Stub.r35]).
Proof.
  apply (proj2 (searchBySNR_floor Stub.Time Stub.query_surveys_rev)
           [Stub.r35; Stub.r25] Stub.r25 Stub.r35 25%Q 35%Q
           19900123000000 20040528083211 20050102030405);
    first [reflexivity | right; reflexivity | vm_compute; discriminate].
Defined.

(** ** Downloads *)

Lemma retrieve_calls_app (t1 t2 : list event) :
  retrieve_calls (t1 ++ t2) = retrieve_calls t1 ++ retrieve_calls t2.
Proof. apply omap_app. Qed.

Lemma printed_app (t1 t2 : list event) :
  printed (t1 ++ t2) = printed t1 ++ printed t2.
Proof. apply omap_app. Qed.

(** [searchStar] issues no retrieval and prints nothing. *)
Lemma searchStar_quiet (Time : TimeLib)
    (qs : surveys_arg → string → qresult Row) (star : string)
    (instrument date : option string) (SNR : option pyfloat) :
  retrieve_calls (trace_of (searchStar Time qs star instrument date SNR)) = []
  ∧ printed (trace_of (searchStar Time qs star instrument date SNR)) = [].
Proof.
  rewrite searchStar_eq.
  destruct (Time (date_text date)); [|now split]. cbv zeta.
  destruct (qs (surveys_of instrument) star) as [tbl| |e]; try now split.
  destruct (reads_rows Time tbl); now split.
Qed.

Lemma searchAndDownload_eq (Time : TimeLib)
    (qs : surveys_arg → string → qresult Row)
    (rd : list string → option string → option exn) (star : string)
    (instrument downloadPath date : option string) (SNR : option pyfloat) :
  _searchAndDownload Time qs rd star instrument downloadPath date SNR =
  match searchStar Time qs star instrument date SNR with
  | (t, Ok tbl) =>
      let dest := if PyStr.truthy downloadPath then downloadPath else None in
      (t ++ [RetrieveData (map ARCFILE tbl) dest],
       match rd (map ARCFILE tbl) dest with
       | None => Ok tt
       | Some e => Raise e
       end)
  | (t, Raise e) => (t, Raise e)
  end.
Proof.
  unfold _searchAndDownload.
  destruct (searchStar Time qs star instrument date SNR) as [t [tbl|e]];
    [|reflexivity].
  rewrite bind_ok. cbv zeta. unfold retrieve_data.
  destruct (PyStr.truthy downloadPath); rewrite bind_emit;
    destruct (rd (map ARCFILE tbl) _); reflexivity.
Qed.

(** C8. When [searchStar] resolves to the empty table, the download still
    issues exactly one bulk retrieval, and it passes the empty set of
    identifiers: the empty case is not skipped. *)
Theorem searchAndDownload_empty_still_retrieves (Time : TimeLib)
    (qs : surveys_arg → string → qresult Row)
    (rd : list string → option string → option exn) (star : string)
    (instrument downloadPath date : option string) (SNR : option pyfloat)
    (tr : list event) :
  searchStar Time qs star instrument date SNR = (tr, Ok []) →
  let run := _searchAndDownload Time qs rd star instrument downloadPath date SNR in
  let dest := if PyStr.truthy downloadPath then downloadPath else None in
  trace_of run = tr ++ [RetrieveData [] dest]
  ∧ retrieve_calls (trace_of run) = [([], dest)].
Proof.
  intros Hs run dest. subst run.
  rewrite searchAndDownload_eq.
  pose proof (searchStar_quiet Time qs star instrument date SNR) as [Hq _].
  rewrite Hs in Hq |- *. cbn [trace_of fst map] in Hq |- *.
  split; [reflexivity|].
  rewrite retrieve_calls_app, Hq. reflexivity.
Qed.

Lemma searchAndDownload_empty_still_retrieves_witness :
  let run := _searchAndDownload Stub.Time Stub.query_surveys_old
               Stub.retrieve_data "X" (Some "HARPS") (Some "spectra/") None None in
  trace_of run = [QuerySurveys (OneSurvey "HARPS") "X";
                  RetrieveData [] (Some "spectra/")]
  ∧ retrieve_calls (trace_of run) = [([], Some "spectra/")].
Proof.
  assert (Hs : searchStar Stub.Time Stub.query_surveys_old "X" (Some "HARPS")
                 None None = ([QuerySurveys (OneSurvey "HARPS") "X"], Ok []))
    by (vm_compute; reflexivity).
  exact (searchAndDownload_empty_still_retrieves Stub.Time
           Stub.query_surveys_old Stub.retrieve_data "X" (Some "HARPS")
           (Some "spectra/") None None _ Hs).
Defined.

(** ** Instrument discovery and the [get...data] methods *)

Lemma searchInstruments_eq (qm : string → qresult MainRow) (star : string) :
  searchInstruments qm star =
  match qm star with
  | QTable rows =>
      ([QueryMain star],
       Ok (foldl (fun (d : gmap string Z) '(j, n) => <[j := n]> d) ∅
             (np_unique_counts (map main_Instrument rows))))
  | QNone => ([QueryMain star], Raise TypeError)
  | QRaise e => ([QueryMain star], Raise e)
  end.
Proof.
  unfold searchInstruments, query_main. rewrite bind_emit.
  destruct (qm star) as [rows| |e]; reflexivity.
Qed.

Lemma searchInstruments_quiet (qm : string → qresult MainRow) (star : string) :
  retrieve_calls (trace_of (searchInstruments qm star)) = []
  ∧ printed (trace_of (searchInstruments qm star)) = [].
Proof. rewrite searchInstruments_eq. now destruct (qm star). Qed.

Lemma dict_of_pairs_dom (l : list (string * Z)) (d0 : gmap string Z) :
  dom (foldl (fun (d : gmap string Z) '(j, n) => <[j := n]> d) d0 l)
  = dom d0 ∪ list_to_set l.*1.
Proof.
  revert d0. induction l as [|[j n] l IH]; intros d0; simpl.
  - now rewrite union_empty_r_L.
  - rewrite IH, dom_insert_L. apply set_eq. intros x.
    rewrite !elem_of_union, elem_of_singleton. tauto.
Qed.

(** The keys of the discovery dict are the instrument names that occur in
    the answer of [query_main]. *)
Lemma searchInstruments_dom (qm : string → qresult MainRow) (star : string)
    (tr : list event) (ci : gmap string Z) (rows : list MainRow) :
  qm star = QTable rows → searchInstruments qm star = (tr, Ok ci) →
  ∀ j, j ∈ dom ci ↔ j ∈ map main_Instrument rows.
Proof.
  intros Hq. rewrite searchInstruments_eq, Hq. intros [= <- <-] j.
  rewrite dict_of_pairs_dom, dom_empty_L. unfold np_unique_counts.
  rewrite <- list_fmap_compose.
  rewrite elem_of_union, elem_of_list_to_set, list_elem_of_fmap.
  split.
  - intros [H|(x & -> & Hx)]; [now apply not_elem_of_empty in H|].
    unfold compose. cbn [fst]. exact (proj1 (elem_of_remove_dups _ _) Hx).
  - intros Hj. right. exists j. split; [reflexivity|].
    exact (proj2 (elem_of_remove_dups _ _) Hj).
Qed.

Section DownloadLoop.

Variable Time : TimeLib.
Variable qs : surveys_arg → string → qresult Row.
Variable rd : list string → option string → option exn.
Variables (star : string) (downloadPath date : option string) (SNR : option pyfloat).

(** One turn of the loop for an instrument that discovery did not report. *)
Lemma download_loop_absent (ci : gmap string Z) (j : string) :
  j ∉ dom ci →
  download_loop Time qs rd ci [j] star downloadPath date SNR
  = ([Print (searching j); Print (no_data j); Print done_line], Ok tt).
Proof.
  intros Hj. unfold download_loop. cbn [for_each].
  rewrite bool_decide_eq_false_2 by exact Hj. reflexivity.
Qed.

(** One turn of the loop for an instrument that discovery reported. *)
Lemma download_loop_present (ci : gmap string Z) (j : string) :
  j ∈ dom ci →
  download_loop Time qs rd ci [j] star downloadPath date SNR
  = (print (searching j) ;;;
     _searchAndDownload Time qs rd star (Some j) downloadPath date SNR ;;;
     print done_line).
Proof.
  intros Hj. unfold download_loop. cbn [for_each].
  rewrite bool_decide_eq_true_2 by exact Hj.
  unfold print, emit, ret.
  destruct (_searchAndDownload _ _ _ _ _ _ _ _) as [t [[]|e]]; simpl;
    now rewrite ?app_nil_r.
Qed.

(** No retrieval is issued when none of the looped instruments is a key of
    the discovery dict. *)
Lemma download_loop_no_retrieval (ci : gmap string Z) (js : list string) :
  (∀ j, j ∈ js → j ∉ dom ci) →
  retrieve_calls
    (trace_of (download_loop Time qs rd ci js star downloadPath date SNR)) = [].
Proof.
  intros Habs. unfold download_loop.
  assert (Hloop : ∃ t,
    for_each js (fun j =>
      print (PyStr.nl +:+ "*** Searching for " +:+ j +:+ " results ***" +:+ PyStr.nl) ;;;
      if bool_decide (j ∈ dom ci)
      then _searchAndDownload Time qs rd star (Some j) downloadPath date SNR
      else print ("No " +:+ j +:+ " data" +:+ PyStr.nl)) = (t, Ok tt)
    ∧ retrieve_calls t = []).
  { induction js as [|j js IH]; [now exists []|].
    destruct IH as (t & Ht & Hr); [intros; apply Habs; now right|].
    cbn [for_each]. rewrite Ht.
    rewrite bool_decide_eq_false_2 by (apply Habs; left).
    eexists. split; [reflexivity|]. simpl. exact Hr. }
  destruct Hloop as (t & -> & Hr). simpl.
  rewrite retrieve_calls_app, Hr. reflexivity.
Qed.

End DownloadLoop.

(** C7. When the discovery dict of [searchInstruments(star)] has no key
    [FEROS], [getFEROSdata(star)] issues no retrieval and prints the notice
    [No FEROS data] exactly once (between the progress line and the final
    line).  A retrieval occurs in a run of [getFEROSdata] only when discovery
    returned a dict with the key [FEROS]; in the loop shared by all
    [get...data] methods no retrieval is issued when none of the looped
    instruments is a key of the discovery dict. *)
Theorem getFEROSdata_without_FEROS (Time : TimeLib)
    (qm : string → qresult MainRow) (qs : surveys_arg → string → qresult Row)
    (rd : list string → option string → option exn) (star : string)
    (downloadPath date : option string) (SNR : option pyfloat) :
  let run := getFEROSdata Time qm qs rd star downloadPath date SNR in
  (∀ tr0 ci, searchInstruments qm star = (tr0, Ok ci) → "FEROS" ∉ dom ci →
     run = (tr0 ++ [Print (searching "FEROS"); Print (no_data "FEROS");
                    Print done_line], Ok tt)
     ∧ retrieve_calls (trace_of run) = []
     ∧ occurrences (no_data "FEROS") (printed (trace_of run)) = 1%nat)
  ∧ (∀ call, call ∈ retrieve_calls (trace_of run) →
       ∃ tr0 ci, searchInstruments qm star = (tr0, Ok ci) ∧ "FEROS" ∈ dom ci)
  ∧ (∀ ci js, (∀ j, j ∈ js → j ∉ dom ci) →
       retrieve_calls
         (trace_of (download_loop Time qs rd ci js star downloadPath date SNR))
       = []).
Proof.
  intros run.
  assert (Habsent : ∀ tr0 ci, searchInstruments qm star = (tr0, Ok ci) →
            "FEROS" ∉ dom ci →
            run = (tr0 ++ [Print (searching "FEROS"); Print (no_data "FEROS");
                           Print done_line], Ok tt)).
  { intros tr0 ci Hsi Hno. subst run. unfold getFEROSdata.
    rewrite Hsi, bind_ok, download_loop_absent by exact Hno. reflexivity. }
  pose proof (searchInstruments_quiet qm star) as [Hr0 Hp0].
  split; [|split].
  - intros tr0 ci Hsi Hno. rewrite (Habsent tr0 ci Hsi Hno).
    rewrite Hsi in Hr0, Hp0. cbn [trace_of fst] in *.
    split; [reflexivity|]. split.
    + rewrite retrieve_calls_app, Hr0. reflexivity.
    + rewrite printed_app, Hp0. reflexivity.
  - intros call Hcall.
    destruct (searchInstruments qm star) as [tr0 [ci|e]] eqn:Hsi.
    + destruct (decide ("FEROS" ∈ dom ci)) as [Hin|Hno]; [now exists tr0, ci|].
      rewrite (Habsent tr0 ci eq_refl Hno) in Hcall.
      cbn [trace_of fst] in *. rewrite retrieve_calls_app, Hr0 in Hcall.
      simpl in Hcall. now apply elem_of_nil in Hcall.
    + subst run. unfold getFEROSdata in Hcall. rewrite Hsi in Hcall.
      cbn [bind trace_of fst] in *. rewrite Hr0 in Hcall.
      now apply elem_of_nil in Hcall.
  - intros ci js. apply download_loop_no_retrieval.
Qed.

Lemma getFEROSdata_without_FEROS_witness :
  let run := getFEROSdata Stub.Time Stub.query_main Stub.query_surveys
               Stub.retrieve_data "X" None None None in
  run = ([QueryMain "X"; Print (searching "FEROS"); Print (no_data "FEROS");
          Print done_line], Ok tt)
  ∧ retrieve_calls (trace_of run) = []
  ∧ occurrences (no_data "FEROS") (printed (trace_of run)) = 1%nat.
Proof.
  assert (Hsi : searchInstruments Stub.query_main "X"
                = ([QueryMain "X"], Ok {["HARPS" := 2]}))
    by (vm_compute; reflexivity).
  refine (proj1 (getFEROSdata_without_FEROS Stub.Time Stub.query_main
                   Stub.query_surveys Stub.retrieve_data "X" None None None)
            _ _ Hsi _).
  vm_compute. intros H. discriminate H.
Defined.

(** ** [readList] *)

Section ReadList.

Variable Time : TimeLib.
Variable qs : surveys_arg → string → qresult Row.
Variable catalog : string → option (list string).
Variables (instrument downloadPath date : option string) (SNR : option pyfloat).

Local Abbreviation turn := (readList_body Time qs instrument date SNR).

Lemma turn_eq (j : string) :
  turn j =
  (Print (star_line j) :: trace_of (searchStar Time qs j instrument date SNR)
     ++ [Print (if raises (searchStar Time qs j instrument date SNR)
                then not_found_line else "")],
   Ok tt).
Proof.
  unfold readList_body, raises, outcome, trace_of.
  destruct (searchStar Time qs j instrument date SNR) as [t [R|e]]; reflexivity.
Qed.

Lemma for_each_turns (names : list string) :
  for_each names turn = (flat_map (fun j => trace_of (turn j)) names, Ok tt).
Proof.
  induction names as [|j names IH]; [reflexivity|].
  cbn [for_each flat_map]. rewrite IH, (turn_eq j). reflexivity.
Qed.

Lemma readList_eq (filename : string) :
  readList Time qs catalog filename instrument downloadPath date SNR =
  match catalog "WEBSITE_online.rdb" with
  | None => ([LoadTxt "WEBSITE_online.rdb"], Raise OSError)
  | Some [name] => ([LoadTxt "WEBSITE_online.rdb"], Raise TypeError)
  | Some names =>
      (LoadTxt "WEBSITE_online.rdb"
         :: flat_map (fun j => trace_of (turn j)) names,
       Ok (Arr1 names))
  end.
Proof.
  unfold readList, np_loadtxt.
  destruct (catalog "WEBSITE_online.rdb") as [[|name [|name' names]]|];
    try reflexivity.
  cbn [bind emit ret iterate app]. rewrite for_each_turns, bind_ok.
  cbn [fst snd]. now rewrite app_nil_r.
Qed.

Lemma turn_counts (j : string) :
  occurrences not_found_line (printed (trace_of (turn j)))
  = (if raises (searchStar Time qs j instrument date SNR) then 1 else 0)%nat
  ∧ loaded (trace_of (turn j)) = [].
Proof.
  rewrite turn_eq. cbn [trace_of fst].
  pose proof (searchStar_eq Time qs j instrument date SNR) as Heq.
  unfold raises, outcome.
  destruct (searchStar Time qs j instrument date SNR) as [t r].
  assert (Ht : t = [] ∨ t = [QuerySurveys (surveys_of instrument) j]).
  { destruct (Time (date_text date)); [|left; congruence]. cbv zeta in Heq.
    destruct (qs (surveys_of instrument) j) as [tbl| |e];
      [destruct (reads_rows Time tbl)| |]; right; congruence. }
  cbn [snd].
  destruct Ht as [-> | ->]; destruct r; split; reflexivity.
Qed.

Lemma occurrences_app (text : string) (l1 l2 : list string) :
  occurrences text (l1 ++ l2)
  = (occurrences text l1 + occurrences text l2)%nat.
Proof. unfold occurrences. now rewrite List.filter_app, length_app. Qed.

Lemma turns_counts (names : list string) :
  occurrences not_found_line
    (printed (flat_map (fun j => trace_of (turn j)) names))
  = List.length
      (List.filter (fun j => raises (searchStar Time qs j instrument date SNR))
         names)
  ∧ loaded (flat_map (fun j => trace_of (turn j)) names) = [].
Proof.
  induction names as [|j names [IHn IHl]]; [now split|].
  cbn [flat_map List.filter]. unfold loaded in *.
  rewrite printed_app, occurrences_app, omap_app, IHn, IHl.
  destruct (turn_counts j) as [-> Hl]. unfold loaded in Hl. rewrite Hl.
  split; [|reflexivity].
  now destruct (raises (searchStar Time qs j instrument date SNR)).
Qed.


End ReadList.

(** The scenario of the specification: a catalogue of three rows whose
    second name is unknown to the archive.  All three names are returned and
    exactly one notice is printed. *)
Example readList_three_rows :
  let run := readList Stub.Time Stub.query_surveys Stub.catalog3
               "catalogue.rdb" None None None None in
  outcome run = Ok (Arr1 ["X"; "Nowhere"; "51 Peg"])
  ∧ raises (searchStar Stub.Time Stub.query_surveys "X" None None None) = false
  ∧ raises (searchStar Stub.Time Stub.query_surveys "Nowhere" None None None) = true
  ∧ raises (searchStar Stub.Time Stub.query_surveys "51 Peg" None None None) = false
  ∧ occurrences not_found_line (printed (trace_of run)) = 1%nat.
Proof. vm_compute. repeat split; reflexivity. Qed.

(** C4. On a catalogue with exactly one row after the header, [np.loadtxt]
    (one column, default [ndmin]) gives a 0-d array and [enumerate(stars)]
    raises [TypeError] before the first query: [readList] raises instead of
    returning the one name. *)
Theorem readList_single_row_raises (Time : TimeLib)
    (qs : surveys_arg → string → qresult Row)
    (catalog : string → option (list string)) (filename : string)
    (instrument downloadPath date : option string) (SNR : option pyfloat)
    (name : string) :
  catalog "WEBSITE_online.rdb" = Some [name] →
  readList Time qs catalog filename instrument downloadPath date SNR
  = ([LoadTxt "WEBSITE_online.rdb"], Raise TypeError).
Proof. intros Hc. now rewrite readList_eq, Hc. Qed.

Lemma readList_single_row_raises_witness :
  readList Stub.Time Stub.query_surveys Stub.catalog1 "WEBSITE_online.rdb"
    None None None None
  = ([LoadTxt "WEBSITE_online.rdb"], Raise TypeError).
Proof.
  apply (readList_single_row_raises Stub.Time Stub.query_surveys Stub.catalog1
           "WEBSITE_online.rdb" None None None None "51 Peg").
  reflexivity.
Defined.

(** C5. The result of [readList] does not depend on its [filename]
    argument: two calls that differ only in [filename] are the same
    computation; the only file read is the fixed path [WEBSITE_online.rdb],
    and the result depends on the file system only through that path. *)
Theorem readList_ignores_filename (Time : TimeLib)
    (qs : surveys_arg → string → qresult Row)
    (catalog : string → option (list string)) (f1 f2 : string)
    (instrument downloadPath date : option string) (SNR : option pyfloat) :
  readList Time qs catalog f1 instrument downloadPath date SNR
  = readList Time qs catalog f2 instrument downloadPath date SNR
  ∧ loaded (trace_of (readList Time qs catalog f1 instrument downloadPath date SNR))
    = ["WEBSITE_online.rdb"]
  ∧ (∀ catalog' : string → option (list string),
       catalog' "WEBSITE_online.rdb" = catalog "WEBSITE_online.rdb" →
       readList Time qs catalog' f2 instrument downloadPath date SNR
       = readList Time qs catalog f1 instrument downloadPath date SNR).
Proof.
  split; [reflexivity|]. split.
  - rewrite readList_eq.
    destruct (catalog "WEBSITE_online.rdb") as [names|] eqn:Hc; [|reflexivity].
    destruct (turns_counts Time qs instrument date SNR names) as [_ Hl].
    destruct names as [|n1 [|n2 names]]; try reflexivity.
    cbn [trace_of fst]. unfold loaded in *. cbn [omap list_omap].
    now rewrite Hl.
  - intros catalog' Hc. rewrite !readList_eq. now rewrite Hc.
Qed.

Lemma readList_ignores_filename_witness :
  readList Stub.Time Stub.query_surveys
    (fun f => if String.eqb f "WEBSITE_online.rdb"
              then Some ["X"; "Nowhere"; "51 Peg"] else Some ["Vega"])
    "other.rdb" None None None None
  = readList Stub.Time Stub.query_surveys Stub.catalog3 "catalogue.rdb"
      None None None None.
Proof.
  apply (proj2 (proj2 (readList_ignores_filename Stub.Time Stub.query_surveys
                         Stub.catalog3 "catalogue.rdb" "other.rdb"
                         None None None None))).
  reflexivity.
Defined.

(** ** [searchInstrumentSpectra] *)

Lemma np_sum_bounds (mask : list bool) :
  0 ≤ np_sum mask ≤ Z.of_nat (List.length mask).
Proof.
  induction mask as [|b mask IH]; simpl; [lia|].
  destruct b; lia.
Qed.

Lemma spectra_count_nonneg (j : string) (R : list Row) : 0 ≤ spectra_count j R.
Proof. apply np_sum_bounds. Qed.

(** A row is counted for at most one of the four instruments. *)
Lemma one_instrument (x : string) :
  (if String.eqb x "FEROS" then 1 else 0) + (if String.eqb x "UVES" then 1 else 0)
  + (if String.eqb x "HARPS" then 1 else 0)
  + (if String.eqb x "ESPRESSO" then 1 else 0) ≤ 1.
Proof.
  destruct (String.eqb_spec x "FEROS") as [->|_]; [vm_compute; discriminate|].
  destruct (String.eqb_spec x "UVES") as [->|_]; [vm_compute; discriminate|].
  destruct (String.eqb_spec x "HARPS") as [->|_]; [vm_compute; discriminate|].
  destruct (String.eqb x "ESPRESSO"); lia.
Qed.

Lemma four_counts_le_length (R : list Row) :
  spectra_count "FEROS" R + spectra_count "UVES" R
  + spectra_count "HARPS" R + spectra_count "ESPRESSO" R
  ≤ Z.of_nat (List.length R).
Proof.
  induction R as [|r R IH]; [vm_compute; discriminate|].
  pose proof (one_instrument (Instrument r)) as H1.
  unfold spectra_count in *. cbn [map np_sum foldr List.length] in *.
  change (foldr (fun (b : bool) acc => (if b then 1 else 0) + acc) 0)
    with np_sum in *.
  lia.
Qed.

Lemma filter_length_le {A} (f : A → bool) (l : list A) :
  (List.length (List.filter f l) <= List.length l)%nat.
Proof.
  induction l as [|x l IH]; simpl; [lia|]. destruct (f x); simpl; lia.
Qed.

Lemma searchInstrumentSpectra_eq (Time : TimeLib)
    (qs : surveys_arg → string → qresult Row) (star : string)
    (instrument : option string) :
  searchInstrumentSpectra Time qs star instrument =
  match searchStar Time qs star None None None with
  | (t, Ok R) =>
      (t, Ok (if PyStr.truthy instrument
              then <[default "" instrument
                     := spectra_count (default "" instrument) R]> ∅
              else <["ESPRESSO" := spectra_count "ESPRESSO" R]>
                     (<["HARPS" := spectra_count "HARPS" R]>
                        (<["UVES" := spectra_count "UVES" R]>
                           (<["FEROS" := spectra_count "FEROS" R]> ∅)))))
  | (t, Raise e) => (t, Raise e)
  end.
Proof.
  unfold searchInstrumentSpectra.
  destruct (searchStar Time qs star None None None) as [t [R|e]]; [|reflexivity].
  rewrite bind_ok. cbv zeta.
  destruct (PyStr.truthy instrument); unfold ret; cbn [fst snd];
    now rewrite app_nil_r.
Qed.

Lemma four_counts_total (c1 c2 c3 c4 : Z) :
  total_count (<["ESPRESSO" := c4]> (<["HARPS" := c3]>
                 (<["UVES" := c2]> (<["FEROS" := c1]> (∅ : gmap string Z)))))
  = c1 + c2 + c3 + c4.
Proof.
  unfold total_count.
  rewrite !map_fold_insert_L, map_fold_empty;
    try (intros; lia); reflexivity.
Qed.

(** A given instrument does not always yield a single key: with the empty
    string as [instrument] the test [if instrument:] fails and the dict has
    the four keys, not the single key [""]. *)
Lemma searchInstrumentSpectra_empty_name_counterexample :
  ∃ m : gmap string Z,
    outcome (searchInstrumentSpectra Stub.Time Stub.query_surveys "51 Peg"
               (Some "")) = Ok m
    ∧ dom m = {[ "FEROS"; "UVES"; "HARPS"; "ESPRESSO" ]}
    ∧ dom m ≠ {[ "" ]}.
Proof.
  exists (<["ESPRESSO" := 0]> (<["HARPS" := 1]>
            (<["UVES" := 0]> (<["FEROS" := 1]> ∅)))).
  split; [vm_compute; reflexivity|]. split.
  - rewrite !dom_insert_L, dom_empty_L. apply set_eq. intros x.
    rewrite !elem_of_union, !elem_of_singleton, elem_of_empty. tauto.
  - intros H. assert (Hin : "FEROS" ∈ ({[ "" ]} : gset string)).
    { rewrite <- H, !dom_insert_L, !elem_of_union, !elem_of_singleton. tauto. }
    apply elem_of_singleton in Hin. discriminate Hin.
Qed.

(** C6, amended. When [searchInstrumentSpectra(star, instrument)] returns
    and [instrument] is absent (or the empty string, which [if instrument:]
    treats as absent), the keys of the dict are exactly the four recognised
    instruments, every count is non-negative, and the four counts add up to
    at most the number of rows answered by the survey query for the star.
    When a non-empty [instrument] is given the dict has exactly that one
    key, with a non-negative count. *)
Theorem searchInstrumentSpectra_counts (Time : TimeLib)
    (qs : surveys_arg → string → qresult Row) (star : string)
    (instrument : option string) (tr : list event) (m : gmap string Z) :
  searchInstrumentSpectra Time qs star instrument = (tr, Ok m) →
  (instrument = None ∨ instrument = Some "" →
     dom m = {[ "FEROS"; "UVES"; "HARPS"; "ESPRESSO" ]}
     ∧ (∀ j n, m !! j = Some n → 0 ≤ n)
     ∧ ∃ tbl, qs (SurveyList instruments) star = QTable tbl
              ∧ total_count m ≤ Z.of_nat (List.length tbl))
  ∧ (∀ i, instrument = Some i → i ≠ "" →
       dom m = {[ i ]} ∧ ∃ n, m !! i = Some n ∧ 0 ≤ n).
Proof.
  rewrite searchInstrumentSpectra_eq.
  destruct (searchStar Time qs star None None None) as [t [R|e]] eqn:Hs;
    [|discriminate].
  intros [= <- <-].
  destruct (searchStar_inv _ _ _ _ _ _ _ _ Hs) as (d & tbl & _ & Hq & _ & _ & HR).
  split.
  - intros Hfalsy.
    assert (PyStr.truthy instrument = false) as ->
      by (destruct Hfalsy as [-> | ->]; reflexivity).
    split; [|split].
    + rewrite !dom_insert_L, dom_empty_L. apply set_eq. intros x.
      rewrite !elem_of_union, !elem_of_singleton, elem_of_empty. tauto.
    + intros j n. rewrite !lookup_insert.
      repeat case_decide; intros [= <-]; apply spectra_count_nonneg.
    + exists tbl. split; [exact Hq|].
      rewrite four_counts_total.
      pose proof (four_counts_le_length R) as Hsum.
      pose proof (filter_length_le
                    (fun r => passes_date Time d r
                              && passes_SNR (SNR_or_default None) r) tbl) as Hlen.
      rewrite <- HR in Hlen. lia.
  - intros i -> Hne.
    assert (PyStr.truthy (Some i) = true) as ->.
    { unfold PyStr.truthy, PyStr.falsy.
      destruct (String.eqb_spec i ""); [contradiction | reflexivity]. }
    cbn [default]. split.
    + rewrite dom_insert_L, dom_empty_L. now rewrite union_empty_r_L.
    + exists (spectra_count i R). split;
        [apply lookup_insert_eq | apply spectra_count_nonneg].
Qed.

Lemma searchInstrumentSpectra_counts_witness :
  ∃ m : gmap string Z,
    searchInstrumentSpectra Stub.Time Stub.query_surveys "51 Peg" None
    = ([QuerySurveys (SurveyList instruments) "51 Peg"], Ok m)
    ∧ dom m = {[ "FEROS"; "UVES"; "HARPS"; "ESPRESSO" ]}
    ∧ (∀ j n, m !! j = Some n → 0 ≤ n)
    ∧ ∃ tbl, Stub.query_surveys (SurveyList instruments) "51 Peg" = QTable tbl
             ∧ total_count m ≤ Z.of_nat (List.length tbl).
Proof.
  eexists.
  assert (Hrun : searchInstrumentSpectra Stub.Time Stub.query_surveys "51 Peg" None
                 = ([QuerySurveys (SurveyList instruments) "51 Peg"],
                    Ok (<["ESPRESSO" := 0]> (<["HARPS" := 1]>
                          (<["UVES" := 0]> (<["FEROS" := 1]> ∅))))))
    by (vm_compute; reflexivity).
  split; [exact Hrun|].
  apply (proj1 (searchInstrumentSpectra_counts Stub.Time Stub.query_surveys
                  "51 Peg" None _ _ Hrun)).
  left. reflexivity.
Defined.

(** * Further properties of the client *)

(** ** [_remove_planet]: every name *)

Lemma substring_prefix_split (n : nat) (s : string) :
  ∃ t, s = substring 0 n s +:+ t
       ∧ String.length t = (String.length s - n)%nat.
Proof.
  revert n. induction s as [|a s IH]; intros n.
  - exists "". now destruct n.
  - destruct n as [|n]; simpl.
    + now exists (String a s).
    + destruct (IH n) as (t & Ht & Hlen). exists t.
      split; [|exact Hlen].
      change (String a s = String a (substring 0 n s +:+ t)).
      now rewrite <- Ht.
Qed.

Lemma drop_last_split (k : nat) (s : string) :
  ∃ t, s = PyStr.drop_last k s +:+ t ∧ (String.length t <= k)%nat
       ∧ String.length (PyStr.drop_last k s) = (String.length s - k)%nat.
Proof.
  unfold PyStr.drop_last.
  destruct (substring_prefix_split (String.length s - k) s) as (t & Ht & Hlen).
  exists t. split; [exact Ht|]. split; [lia|].
  apply (f_equal String.length) in Ht. rewrite length_append in Ht. lia.
Qed.

Lemma endswith_length (s suffix : string) :
  PyStr.endswith s suffix = true → (String.length suffix <= String.length s)%nat.
Proof.
  unfold PyStr.endswith. intros H. apply andb_true_iff in H.
  destruct H as [H _]. now apply Nat.leb_le in H.
Qed.

(** The loop over the planet letters returns exactly when one of the
    two-character suffixes matches, and then cuts two characters. *)
Lemma planet_loop_some (ps : list ascii) (name r : string) :
  planet_loop ps name = Some r →
  r = PyStr.drop_last 2 name
  ∧ ∃ planet, planet ∈ ps
              ∧ PyStr.endswith name (String " " (String planet "")) = true.
Proof.
  induction ps as [|c ps IH]; simpl; [discriminate|].
  destruct (PyStr.endswith name (String " " (String c ""))) eqn:He.
  - intros [= <-]. split; [reflexivity|]. exists c. split; [left | exact He].
  - intros Hr. destruct (IH Hr) as (-> & planet & Hin & Hp).
    split; [reflexivity|]. exists planet. split; [now right | exact Hp].
Qed.

Lemma planet_loop_none (ps : list ascii) (name : string) :
  planet_loop ps name = None ↔
  ∀ planet, planet ∈ ps →
            PyStr.endswith name (String " " (String planet "")) = false.
Proof.
  induction ps as [|c ps IH]; simpl.
  - split; [intros _ planet Hin; now apply elem_of_nil in Hin | reflexivity].
  - destruct (PyStr.endswith name (String " " (String c ""))) eqn:He.
    + split; [discriminate|]. intros H. specialize (H c ltac:(left)). congruence.
    + rewrite IH. split.
      * intros H planet Hin. apply elem_of_cons in Hin.
        destruct Hin as [-> | Hin]; [exact He | now apply H].
      * intros H planet Hin. apply H. now right.
Qed.

(** X1. A name that ends in a blank and one of the letters [bcdefghijB]
    loses exactly these two characters, whatever stands before them. *)
Theorem remove_planet_letter (p : string) (planet : ascii) :
  planet ∈ list_ascii_of_string planets →
  _remove_planet (p +:+ String " " (String planet "")) = p.
Proof.
  intros Hin. unfold _remove_planet.
  rewrite planet_loop_append by (simpl; lia).
  destruct (planet_loop (list_ascii_of_string planets)
              (String " " (String planet ""))) eqn:Hl.
  - apply (drop_last_append p (String " " (String planet ""))).
  - exfalso. rewrite planet_loop_none in Hl. specialize (Hl planet Hin).
    unfold PyStr.endswith in Hl. simpl in Hl.
    rewrite Ascii.eqb_refl in Hl. discriminate Hl.
Qed.

Lemma remove_planet_letter_witness : _remove_planet "Kepler-10 c" = "Kepler-10".
Proof.
  apply (remove_planet_letter "Kepler-10" "c").
  vm_compute. do 1 right. left.
Defined.

(** X2. Whatever the name, the result is a prefix of it, and at most three
    characters are cut off. *)
Theorem remove_planet_prefix (name : string) :
  ∃ cut, name = _remove_planet name +:+ cut ∧ (String.length cut <= 3)%nat.
Proof.
  unfold _remove_planet.
  destruct (planet_loop (list_ascii_of_string planets) name) as [r|] eqn:Hl.
  - apply planet_loop_some in Hl. destruct Hl as [-> _].
    destruct (drop_last_split 2 name) as (t & Ht & Hlen & _).
    exists t. split; [exact Ht | lia].
  - destruct (PyStr.endswith name ".01" || PyStr.endswith name ".02"
              || PyStr.endswith name ".2").
    + destruct (drop_last_split 3 name) as (t & Ht & Hlen & _).
      exists t. split; [exact Ht | exact Hlen].
    + exists "". split; [|simpl; lia].
      clear. induction name as [|a name IH]; [reflexivity|].
      change (String a name = String a (name +:+ "")). now rewrite <- IH.
Qed.

(** X3. A name is returned unchanged exactly when it ends in none of the
    thirteen recognised suffixes; a name with a recognised suffix always
    comes back shorter. *)
Theorem remove_planet_unchanged_iff (name : string) :
  _remove_planet name = name ↔
  ∀ suffix, suffix ∈ recognised_suffixes → PyStr.endswith name suffix = false.
Proof.
  assert (Hshort : ∀ k, (1 <= k)%nat → (1 <= String.length name)%nat →
            PyStr.drop_last k name ≠ name).
  { intros k Hk Hn Heq. destruct (drop_last_split k name) as (_ & _ & _ & Hlen).
    rewrite Heq in Hlen. lia. }
  unfold _remove_planet, recognised_suffixes. split.
  - intros Heq suffix Hin. apply elem_of_app in Hin.
    destruct (planet_loop (list_ascii_of_string planets) name) as [r|] eqn:Hl.
    + apply planet_loop_some in Hl. destruct Hl as (-> & planet & _ & He).
      apply endswith_length in He. simpl in He.
      exfalso. apply (Hshort 2%nat); [lia | lia | exact Heq].
    + destruct (PyStr.endswith name ".01") eqn:H01;
        [apply endswith_length in H01; simpl in H01; exfalso;
         apply (Hshort 3%nat); [lia | lia | exact Heq]|].
      destruct (PyStr.endswith name ".02") eqn:H02;
        [apply endswith_length in H02; simpl in H02; exfalso;
         apply (Hshort 3%nat); [lia | lia | exact Heq]|].
      destruct (PyStr.endswith name ".2") eqn:H2;
        [apply endswith_length in H2; simpl in H2; exfalso;
         apply (Hshort 3%nat); [lia | lia | exact Heq]|].
      destruct Hin as [Hin | Hin].
      * apply list_elem_of_fmap in Hin. destruct Hin as (planet & -> & Hp).
        rewrite planet_loop_none in Hl. now apply Hl.
      * repeat (apply elem_of_cons in Hin; destruct Hin as [-> | Hin];
                [assumption|]).
        now apply elem_of_nil in Hin.
  - intros Hnone.
    assert (Hl : planet_loop (list_ascii_of_string planets) name = None).
    { apply planet_loop_none. intros planet Hp. apply Hnone.
      apply elem_of_app. left.
      apply list_elem_of_fmap. now exists planet. }
    rewrite Hl.
    rewrite !Hnone; [reflexivity | | |]; apply elem_of_app; right;
      repeat first [left | right].
Qed.

(** ** [searchStar]: failures, queries, thresholds *)

Section SearchStarMore.

Variable Time : TimeLib.
Variable qs : surveys_arg → string → qresult Row.
Variables (star : string) (instrument date : option string).

(** X4. [searchStar] raises in four ways only: the time library rejects the
    date threshold ([ValueError]); the query answers [None]
    ([AttributeError], from [search.remove_rows]); the archive library
    raises (the exception passes through); or the time library does not read
    the ['Date Obs'] column of the answer ([ValueError]): it rejects the
    column as a whole, or cannot parse one of its cells.  In particular an
    answer of no rows raises [ValueError] with a time library that rejects a
    column of no rows, as astropy 6 to 8 do. *)
Theorem searchStar_failure (SNR : option pyfloat) (e : exn) :
  (outcome (searchStar Time qs star instrument date SNR) = Raise e ↔
   (Time (date_text date) = None ∧ e = ValueError)
   ∨ (is_Some (Time (date_text date))
      ∧ (qs (surveys_of instrument) star = QNone ∧ e = AttributeError
         ∨ qs (surveys_of instrument) star = QRaise e
         ∨ ∃ tbl, qs (surveys_of instrument) star = QTable tbl
                  ∧ (accepts_column Time (map Date_Obs tbl) = false
                     ∨ ∃ r, r ∈ tbl ∧ Time (Date_Obs r) = None)
                  ∧ e = ValueError)))
  ∧ (is_Some (Time (date_text date)) →
     qs (surveys_of instrument) star = QTable [] →
     accepts_column Time [] = false →
     outcome (searchStar Time qs star instrument date SNR) = Raise ValueError).
Proof.
  assert (Hreads : ∀ tbl, reads_rows Time tbl = false ↔
            accepts_column Time (map Date_Obs tbl) = false
            ∨ ∃ r, r ∈ tbl ∧ Time (Date_Obs r) = None).
  { intros tbl. unfold reads_rows. rewrite andb_false_iff.
    apply or_iff_compat_l. split.
    - intros Hf. induction tbl as [|r tbl IH]; [discriminate|].
      cbn [forallb] in Hf. apply andb_false_iff in Hf.
      destruct Hf as [Hr | Hf].
      + exists r. split; [left|]. unfold parses in Hr.
        now destruct (Time (Date_Obs r)).
      + destruct (IH Hf) as (r' & Hin & Hr'). exists r'. split; [now right | exact Hr'].
    - intros (r & Hin & Hr).
      destruct (forallb (parses Time) tbl) eqn:Hall; [|reflexivity].
      rewrite forallb_forall in Hall.
      specialize (Hall r (proj1 (list_elem_of_In _ _) Hin)).
      unfold parses in Hall. rewrite Hr in Hall. discriminate. }
  rewrite searchStar_eq. unfold is_Some.
  destruct (Time (date_text date)) as [d|]; cbv zeta.
  - destruct (qs (surveys_of instrument) star) as [tbl| |e'] eqn:Hq;
      [destruct (reads_rows Time tbl) eqn:Hp|..];
      cbn [outcome snd]; (split; [split|]).
    + discriminate.
    + intros [[[=] _] | [_ [[[=] _] | [[=] | (tbl' & [= <-] & Hbad & _)]]]].
      rewrite (proj2 (Hreads tbl) Hbad) in Hp. discriminate.
    + intros _ [= ->] Hacc. unfold reads_rows in Hp. cbn [map] in Hp.
      rewrite Hacc in Hp. discriminate.
    + intros [= <-]. right. split; [now exists d|].
      right. right. exists tbl. split; [reflexivity|].
      split; [now apply Hreads | reflexivity].
    + intros [[[=] _] | [_ [[[=] _] | [[=] | (tbl' & _ & _ & ->)]]]].
      reflexivity.
    + reflexivity.
    + intros [= <-]. right. split; [now exists d|]. now left.
    + intros [[[=] _] | [_ [[_ ->] | [[=] | (tbl' & [=] & _)]]]]. reflexivity.
    + intros _ [=].
    + intros [= <-]. right. split; [now exists d|]. right. now left.
    + intros [[[=] _] | [_ [[[=] _] | [[= <-] | (tbl' & [=] & _)]]]].
      reflexivity.
    + intros _ [=].
  - cbn [outcome snd]. split; [split|].
    + intros [= <-]. now left.
    + intros [[_ ->] | [[x [=]] _]]. reflexivity.
    + intros [x [=]].
Qed.

(** X5. [searchStar] issues exactly one query, for the survey named by a
    non-empty [instrument] and otherwise for the four recognised
    instruments jointly; when the date threshold is rejected it issues none.
    Nothing else is recorded. *)
Theorem searchStar_trace (SNR : option pyfloat) :
  trace_of (searchStar Time qs star instrument date SNR)
  = match Time (date_text date) with
    | Some _ =>
        [QuerySurveys
           (match instrument with
            | Some i => if String.eqb i "" then SurveyList instruments
                        else OneSurvey i
            | None => SurveyList instruments
            end) star]
    | None => []
    end.
Proof.
  rewrite searchStar_eq.
  destruct (Time (date_text date)) as [d|]; [|reflexivity]. cbv zeta.
  assert (Hsv : surveys_of instrument
                = match instrument with
                  | Some i => if String.eqb i "" then SurveyList instruments
                              else OneSurvey i
                  | None => SurveyList instruments
                  end).
  { unfold surveys_of, PyStr.truthy, PyStr.falsy.
    destruct instrument as [i|]; [|reflexivity].
    now destruct (String.eqb i ""). }
  rewrite <- Hsv.
  destruct (qs (surveys_of instrument) star) as [tbl| |e]; try reflexivity.
  now destruct (reads_rows Time tbl).
Qed.

Lemma passes_SNR_mono (t1 t2 : pyfloat) (r : Row) :
  fle t1 t2 = true → passes_SNR t2 r = true → passes_SNR t1 r = true.
Proof.
  rewrite !passes_SNR_not_below. apply flt_mono.
Qed.

Lemma passes_date_mono (d1 d2 : Z) (r : Row) :
  d1 ≤ d2 → passes_date Time d2 r = true → passes_date Time d1 r = true.
Proof.
  rewrite !passes_date_le. intros H12 (t & Ht & Hle). exists t. split; [exact Ht | lia].
Qed.

Lemma filter_absorb {A} (f g : A → bool) (l : list A) :
  (∀ x, g x = true → f x = true) →
  List.filter (fun x => f x && g x) l = List.filter g l.
Proof.
  intros Himp. apply filter_ext. intros x.
  destruct (g x) eqn:Hg; [now rewrite (Himp x Hg) | apply andb_false_r].
Qed.

(** X6. Raising the signal-to-noise floor afterwards is the same as asking
    for it at once: when the effective floor of a second call is not below
    that of a first call that returned, the second call returns the rows of
    the first that pass the higher floor, after the same query. *)
Theorem searchStar_SNR_monotone (S1 S2 : option pyfloat) (tr : list event)
    (R1 : list Row) :
  fle (SNR_or_default S1) (SNR_or_default S2) = true →
  searchStar Time qs star instrument date S1 = (tr, Ok R1) →
  searchStar Time qs star instrument date S2
  = (tr, Ok (List.filter (passes_SNR (SNR_or_default S2)) R1)).
Proof.
  intros Hle. rewrite !searchStar_eq.
  destruct (Time (date_text date)) as [d|]; [|discriminate]. cbv zeta.
  destruct (qs (surveys_of instrument) star) as [tbl| |e]; try discriminate.
  destruct (reads_rows Time tbl); [|discriminate].
  intros [= <- <-]. f_equal. f_equal. rewrite filter_twice.
  apply filter_ext. intros r.
  destruct (passes_date Time d r); cbn [andb]; [|reflexivity].
  destruct (passes_SNR (SNR_or_default S2) r) eqn:H2;
    [now rewrite (passes_SNR_mono _ _ r Hle H2) | now rewrite andb_false_r].
Qed.

End SearchStarMore.

Lemma searchStar_failure_witness :
  outcome (searchStar Stub.Time Stub.query_surveys_empty "X" None None None)
  = Raise ValueError.
Proof.
  apply (proj2 (searchStar_failure Stub.Time Stub.query_surveys_empty "X" None
                  None None ValueError)).
  - now exists 19900123000000.
  - reflexivity.
  - reflexivity.
Defined.

Lemma searchStar_SNR_monotone_witness :
  searchStar Stub.Time Stub.query_surveys "51 Peg" None None (Some (Finite 38))
  = ([QuerySurveys (SurveyList instruments) "51 Peg"],
     Ok (List.filter (passes_SNR (SNR_or_default (Some (Finite 38))))
           [Stub.r35; Stub.f40])).
Proof.
  apply (searchStar_SNR_monotone Stub.Time Stub.query_surveys "51 Peg" None None
           (Some (Finite 0)) (Some (Finite 38))).
  - vm_compute. reflexivity.
  - vm_compute. reflexivity.
Defined.

(** ** [searchBySNR] and [searchByDate]: the second filter *)

Section SecondFilter.

Variable Time : TimeLib.
Variable qs : surveys_arg → string → qresult Row.
Variables (star : string) (instrument : option string).

(** X7. The filter of [searchBySNR] comes on top of the floor 30 of the
    inner [searchStar(star, instrument)]: with a floor of at least 30 the
    call is [searchStar(star, instrument, None, SNR)]; with a floor of at
    most 30 (or a falsy one) it is [searchStar(star, instrument)], so a
    floor below 30 cannot be obtained. *)
Theorem searchBySNR_redundant (SNR : option pyfloat) :
  (fle (Finite 30) (SNR_or_default SNR) = true →
   searchBySNR Time qs star instrument SNR
   = searchStar Time qs star instrument None SNR)
  ∧ (fle (SNR_or_default SNR) (Finite 30) = true →
     searchBySNR Time qs star instrument SNR
     = searchStar Time qs star instrument None None).
Proof.
  rewrite searchBySNR_eq.
  pose proof (searchStar_eq Time qs star instrument None SNR) as HS.
  pose proof (searchStar_eq Time qs star instrument None None) as H0.
  destruct (Time (date_text None)) as [d|];
    [|rewrite HS, H0; split; reflexivity].
  cbv zeta in HS, H0.
  destruct (qs (surveys_of instrument) star) as [tbl| |e];
    [|rewrite HS, H0; split; reflexivity..].
  destruct (reads_rows Time tbl);
    [|rewrite HS, H0; split; reflexivity].
  rewrite HS, H0. rewrite filter_twice.
  change (SNR_or_default None) with (Finite 30).
  split; intros Hle; f_equal; f_equal; apply filter_ext; intros r;
    destruct (passes_date Time d r); cbn [andb]; try reflexivity.
  - destruct (passes_SNR (SNR_or_default SNR) r) eqn:H2; [|apply andb_false_r].
    now rewrite (passes_SNR_mono _ _ r Hle H2).
  - destruct (passes_SNR (Finite 30) r) eqn:H2; [|reflexivity].
    now rewrite (passes_SNR_mono _ _ r Hle H2).
Qed.

Lemma forallb_filter {A} (f g : A → bool) (l : list A) :
  forallb f l = true → forallb f (List.filter g l) = true.
Proof.
  rewrite !forallb_forall. intros H x Hx. apply filter_In in Hx.
  now apply H.
Qed.

Lemma searchByDate_eq (date : option string) :
  searchByDate Time qs star instrument date =
  match Time (date_text date) with
  | None => ([], Raise ValueError)
  | Some d =>
      match searchStar Time qs star instrument None None with
      | (t, Ok R) =>
          if accepts_column Time (map Date_Obs R)
          then (t, Ok (List.filter (passes_date Time d) R))
          else (t, Raise ValueError)
      | (t, Raise e) => (t, Raise e)
      end
  end.
Proof.
  unfold searchByDate. rewrite date_or_default_eq.
  destruct (Time (date_text date)) as [d|]; [|reflexivity].
  rewrite bind_ret_l.
  destruct (searchStar Time qs star instrument None None) as [t [R|e]] eqn:Hs;
    [|reflexivity].
  destruct (searchStar_inv _ _ _ _ _ _ _ _ Hs) as (d0 & tbl & _ & _ & Hp & _ & HR).
  assert (HpR : forallb (parses Time) R = true)
    by (rewrite HR; apply forallb_filter; now apply reads_rows_parses).
  rewrite bind_ok, Time_column_eq. unfold reads_rows. rewrite HpR, andb_true_r.
  destruct (accepts_column Time (map Date_Obs R));
    [|cbn [raise fst snd]; now rewrite app_nil_r].
  rewrite bind_ret_l, date_mask_filter by exact HpR.
  unfold ret. cbn [fst snd]. now rewrite app_nil_r.
Qed.

(** X8. [searchByDate] hands the ['Date Obs'] column of the table returned
    by [searchStar(star, instrument)] to the time library a second time.
    A rejected date raises [ValueError] before any query.  When the library
    rejects that column (astropy 6 to 8 reject a column of no rows, so this
    is what happens when the filters of [searchStar] left no row) the call
    raises [ValueError] although [searchStar] returned.  When it accepts the
    column, a date on or after 1990-01-23 gives [searchStar(star, instrument,
    date)] and a date on or before 1990-01-23 gives [searchStar(star,
    instrument)], so earlier observations cannot be reached. *)
Theorem searchByDate_redundant (date : option string) :
  (Time (date_text date) = None →
   searchByDate Time qs star instrument date = ([], Raise ValueError))
  ∧ (∀ d tr R,
       Time (date_text date) = Some d →
       searchStar Time qs star instrument None None = (tr, Ok R) →
       (accepts_column Time (map Date_Obs R) = false →
        searchByDate Time qs star instrument date = (tr, Raise ValueError))
       ∧ (accepts_column Time (map Date_Obs R) = true →
          ∀ d0, Time "1990-01-23" = Some d0 →
            (d0 ≤ d →
             searchByDate Time qs star instrument date
             = searchStar Time qs star instrument date None)
            ∧ (d ≤ d0 →
               searchByDate Time qs star instrument date
               = searchStar Time qs star instrument None None))).
Proof.
  rewrite searchByDate_eq. split; [now intros ->|].
  intros d tr R Hd Hs. rewrite Hd, Hs. split; [now intros ->|].
  intros Hacc d0 Hd0. rewrite Hacc.
  destruct (searchStar_inv _ _ _ _ _ _ _ _ Hs) as (d0' & tbl & Hd0' & Hq & Hp & -> & ->).
  change (date_text None) with "1990-01-23" in Hd0'.
  assert (d0' = d0) as -> by congruence.
  rewrite searchStar_eq, Hd, Hq, Hp. cbv zeta.
  rewrite filter_twice.
  split; intros Hle; f_equal; f_equal; apply filter_ext; intros r.
  - destruct (passes_date Time d r) eqn:H2.
    + rewrite (passes_date_mono Time _ _ r Hle H2). cbn [andb].
      apply andb_true_r.
    + apply andb_false_r.
  - destruct (passes_date Time d0 r) eqn:H2; cbn [andb]; [|reflexivity].
    rewrite (passes_date_mono Time _ _ r Hle H2). apply andb_true_r.
Qed.

End SecondFilter.

Lemma searchBySNR_redundant_witness :
  searchBySNR Stub.Time Stub.query_surveys "51 Peg" None (Some (Finite 10))
  = searchStar Stub.Time Stub.query_surveys "51 Peg" None None None.
Proof.
  apply (proj2 (searchBySNR_redundant Stub.Time Stub.query_surveys "51 Peg"
                  None (Some (Finite 10)))).
  vm_compute. reflexivity.
Defined.

Lemma searchByDate_redundant_witness :
  searchByDate Stub.Time Stub.query_surveys "51 Peg" None (Some "1985-06-01")
  = searchStar Stub.Time Stub.query_surveys "51 Peg" None None None.
Proof.
  assert (Hs : searchStar Stub.Time Stub.query_surveys "51 Peg" None None None
               = ([QuerySurveys (SurveyList instruments) "51 Peg"],
                  Ok [Stub.r35; Stub.f40]))
    by (vm_compute; reflexivity).
  apply (proj2 (proj2 (proj2 (searchByDate_redundant Stub.Time
                                Stub.query_surveys "51 Peg" None
                                (Some "1985-06-01"))
                         19850601000000 _ _ eq_refl Hs)
                  eq_refl 19900123000000 eq_refl)).
  vm_compute. discriminate.
Defined.

(** The other branch on the stand-in library: every row of [X] in the old
    archive is filtered away by [searchStar(star, instrument)], and
    [searchByDate] raises where that call returns the empty table. *)
Example searchByDate_empty_raises :
  searchStar Stub.Time Stub.query_surveys_old "X" None None None
  = ([QuerySurveys (SurveyList instruments) "X"], Ok [])
  ∧ searchByDate Stub.Time Stub.query_surveys_old "X" None (Some "1985-01-01")
    = ([QuerySurveys (SurveyList instruments) "X"], Raise ValueError).
Proof. vm_compute. split; reflexivity. Qed.

(** ** [_searchAndDownload]: what is requested *)

(** X9. When [searchStar] returns, the download issues exactly one bulk
    retrieval, right after the query: it requests the ['ARCFILE']
    identifiers of the rows returned, which are the rows of the query answer
    that pass the date and signal-to-noise filters, in the order of the
    answer, to [downloadPath] unless that is falsy; an exception of the
    retrieval is the outcome of the download.  When [searchStar] raises,
    nothing is requested and the exception passes through. *)
Theorem searchAndDownload_requests (Time : TimeLib)
    (qs : surveys_arg → string → qresult Row)
    (rd : list string → option string → option exn) (star : string)
    (instrument downloadPath date : option string) (SNR : option pyfloat) :
  let run := _searchAndDownload Time qs rd star instrument downloadPath date SNR in
  let dest := if PyStr.truthy downloadPath then downloadPath else None in
  (∀ tr R, searchStar Time qs star instrument date SNR = (tr, Ok R) →
     trace_of run = tr ++ [RetrieveData (map ARCFILE R) dest]
     ∧ retrieve_calls (trace_of run) = [(map ARCFILE R, dest)]
     ∧ outcome run = match rd (map ARCFILE R) dest with
                     | None => Ok tt
                     | Some e => Raise e
                     end
     ∧ ∃ d tbl,
         Time (date_text date) = Some d
         ∧ qs (surveys_of instrument) star = QTable tbl
         ∧ R = List.filter (fun r => passes_date Time d r
                                     && passes_SNR (SNR_or_default SNR) r) tbl)
  ∧ (∀ tr e, searchStar Time qs star instrument date SNR = (tr, Raise e) →
       run = (tr, Raise e) ∧ retrieve_calls (trace_of run) = []).
Proof.
  intros run dest. subst run dest. rewrite searchAndDownload_eq.
  pose proof (searchStar_quiet Time qs star instrument date SNR) as [Hq _].
  split.
  - intros tr R Hs. rewrite Hs in Hq |- *. cbn [trace_of outcome fst snd] in *.
    cbv zeta. split; [reflexivity|]. split; [|split; [reflexivity|]].
    + rewrite retrieve_calls_app, Hq. reflexivity.
    + destruct (searchStar_inv _ _ _ _ _ _ _ _ Hs) as (d & tbl & Hd & Hqs & _ & _ & ->).
      now exists d, tbl.
  - intros tr e Hs. rewrite Hs in Hq |- *. cbn [trace_of fst] in *.
    split; [reflexivity | exact Hq].
Qed.

Lemma searchAndDownload_requests_witness :
  let run := _searchAndDownload Stub.Time Stub.query_surveys Stub.retrieve_data
               "51 Peg" None (Some "spectra/") None None in
  trace_of run
  = [QuerySurveys (SurveyList instruments) "51 Peg";
     RetrieveData ["ADP.2005-01-02.fits"; "ADP.2010-10-10.fits"]
       (Some "spectra/")]
  ∧ retrieve_calls (trace_of run)
    = [(["ADP.2005-01-02.fits"; "ADP.2010-10-10.fits"], Some "spectra/")]
  ∧ outcome run = Ok tt.
Proof.
  assert (Hs : searchStar Stub.Time Stub.query_surveys "51 Peg" None None None
               = ([QuerySurveys (SurveyList instruments) "51 Peg"],
                  Ok [Stub.r35; Stub.f40]))
    by (vm_compute; reflexivity).
  destruct (proj1 (searchAndDownload_requests Stub.Time Stub.query_surveys
                     Stub.retrieve_data "51 Peg" None (Some "spectra/") None
                     None) _ _ Hs) as (Ht & Hr & Ho & _).
  split; [exact Ht|]. split; [exact Hr | exact Ho].
Defined.

(** ** [searchInstruments]: the discovery dict *)

Lemma dict_of_pairs_lookup (f : string → Z) (xs : list string)
    (d0 : gmap string Z) (j : string) :
  foldl (fun (d : gmap string Z) '(k, n) => <[k := n]> d) d0
    (map (fun x => (x, f x)) xs) !! j
  = if bool_decide (j ∈ xs) then Some (f j) else d0 !! j.
Proof.
  revert d0. induction xs as [|x xs IH]; intros d0; [reflexivity|].
  cbn [map foldl]. rewrite IH.
  destruct (bool_decide (j ∈ xs)) eqn:Hin.
  - apply bool_decide_eq_true in Hin.
    rewrite bool_decide_eq_true_2 by (now right). reflexivity.
  - apply bool_decide_eq_false in Hin.
    destruct (decide (x = j)) as [->|Hne].
    + rewrite lookup_insert_eq, bool_decide_eq_true_2 by left. reflexivity.
    + rewrite lookup_insert_ne by exact Hne.
      rewrite bool_decide_eq_false_2; [reflexivity|].
      intros Hj. apply elem_of_cons in Hj. destruct Hj as [-> | Hj]; tauto.
Qed.

Lemma np_sum_count (x : string) (a : list string) :
  np_sum (map (String.eqb x) a)
  = Z.of_nat (List.length (List.filter (String.eqb x) a)).
Proof.
  induction a as [|y a IH]; [reflexivity|].
  cbn [map List.filter]. destruct (String.eqb x y); simpl in *; lia.
Qed.

Lemma filter_eqb_nonempty (x : string) (a : list string) :
  x ∈ a ↔ (1 <= List.length (List.filter (String.eqb x) a))%nat.
Proof.
  induction a as [|y a IH]; simpl.
  - split; [intros H; now apply elem_of_nil in H | lia].
  - destruct (String.eqb_spec x y) as [->|Hne]; simpl.
    + split; [lia | intros _; left].
    + rewrite <- IH. rewrite elem_of_cons. tauto.
Qed.

(** X10. The discovery dict maps an instrument name to the number of rows
    of the [query_main] answer that carry it: a name is a key exactly when
    it occurs, and then its count is the number of its rows, at least 1. *)
Theorem searchInstruments_counts (qm : string → qresult MainRow)
    (star : string) (rows : list MainRow) (tr : list event)
    (ci : gmap string Z) :
  qm star = QTable rows → searchInstruments qm star = (tr, Ok ci) →
  ∀ j, let n := List.length
                  (List.filter (String.eqb j) (map main_Instrument rows)) in
       ci !! j = (if (1 <=? n)%nat then Some (Z.of_nat n) else None).
Proof.
  intros Hq. rewrite searchInstruments_eq, Hq. intros [= <- <-] j n. subst n.
  unfold np_unique_counts. rewrite dict_of_pairs_lookup, lookup_empty.
  rewrite np_sum_count.
  destruct (bool_decide (j ∈ remove_dups (map main_Instrument rows))) eqn:Hin.
  - apply bool_decide_eq_true in Hin.
    apply (proj1 (elem_of_remove_dups _ _)) in Hin.
    apply (proj1 (filter_eqb_nonempty _ _)) in Hin.
    apply Nat.leb_le in Hin. now rewrite Hin.
  - apply bool_decide_eq_false in Hin.
    rewrite elem_of_remove_dups, filter_eqb_nonempty in Hin.
    destruct (Nat.leb_spec 1
                (List.length (List.filter (String.eqb j)
                                (map main_Instrument rows)))); [lia | reflexivity].
Qed.

Lemma searchInstruments_counts_witness :
  ({["HARPS" := 2; "FEROS" := 1]} : gmap string Z) !! "HARPS" = Some 2.
Proof.
  assert (Hrun : searchInstruments Stub.query_main "51 Peg"
                 = ([QueryMain "51 Peg"], Ok {["HARPS" := 2; "FEROS" := 1]}))
    by (vm_compute; reflexivity).
  exact (searchInstruments_counts Stub.query_main "51 Peg" _ _ _ eq_refl Hrun
           "HARPS").
Defined.

Lemma total_count_insert (d : gmap string Z) (k : string) (n : Z) :
  d !! k = None → total_count (<[k := n]> d) = n + total_count d.
Proof.
  intros Hk. unfold total_count.
  rewrite map_fold_insert_L; [reflexivity | intros; lia | exact Hk].
Qed.

Lemma dict_of_pairs_total (f : string → Z) (xs : list string)
    (d0 : gmap string Z) :
  NoDup xs → (∀ x, x ∈ xs → d0 !! x = None) →
  total_count
    (foldl (fun (d : gmap string Z) '(k, n) => <[k := n]> d) d0
       (map (fun x => (x, f x)) xs))
  = total_count d0 + foldr (fun x acc => f x + acc) 0 xs.
Proof.
  intros Hnd. revert d0. induction Hnd as [|x xs Hx Hnd IH]; intros d0 Hfresh.
  - simpl. lia.
  - cbn [map foldl foldr]. rewrite IH.
    + rewrite total_count_insert by (apply Hfresh; left). lia.
    + intros y Hy. rewrite lookup_insert_ne by (intros ->; contradiction).
      apply Hfresh. now right.
Qed.

Lemma indicator_sum (a : string) (xs : list string) :
  NoDup xs →
  foldr (fun x acc => (if String.eqb x a then 1 else 0) + acc) 0 xs
  = if bool_decide (a ∈ xs) then 1 else 0.
Proof.
  induction 1 as [|x xs Hx Hnd IH]; [reflexivity|].
  cbn [foldr]. rewrite IH.
  destruct (String.eqb_spec x a) as [->|Hne].
  - rewrite (bool_decide_eq_false_2 _ Hx).
    now rewrite bool_decide_eq_true_2 by left.
  - destruct (bool_decide (a ∈ xs)) eqn:Hin.
    + apply bool_decide_eq_true in Hin.
      now rewrite bool_decide_eq_true_2 by (now right).
    + apply bool_decide_eq_false in Hin.
      rewrite bool_decide_eq_false_2; [reflexivity|].
      intros Ha. apply elem_of_cons in Ha. destruct Ha as [-> | Ha]; tauto.
Qed.

Lemma foldr_add_split (f g : string → Z) (xs : list string) :
  foldr (fun x acc => (f x + g x) + acc) 0 xs
  = foldr (fun x acc => f x + acc) 0 xs + foldr (fun x acc => g x + acc) 0 xs.
Proof. induction xs as [|x xs IH]; simpl; lia. Qed.

(** Summed over distinct names that cover the array, the numbers of
    occurrences add up to the length of the array. *)
Lemma counts_sum_length (a xs : list string) :
  NoDup xs → (∀ y, y ∈ a → y ∈ xs) →
  foldr (fun x acc => np_sum (map (String.eqb x) a) + acc) 0 xs
  = Z.of_nat (List.length a).
Proof.
  intros Hnd. induction a as [|y a IH]; intros Hcov.
  - clear. induction xs as [|x xs IH]; simpl in *; lia.
  - cbn [map np_sum foldr List.length].
    change (foldr (fun (b : bool) acc => (if b then 1 else 0) + acc) 0)
      with np_sum.
    rewrite (foldr_add_split (fun x => if String.eqb x y then 1 else 0)
               (fun x => np_sum (map (String.eqb x) a))).
    rewrite IH by (intros z Hz; apply Hcov; now right).
    rewrite indicator_sum by exact Hnd.
    rewrite bool_decide_eq_true_2 by (apply Hcov; left). lia.
Qed.

(** X11. The counts of the discovery dict add up to the number of rows of
    the [query_main] answer: every observation is counted once. *)
Theorem searchInstruments_total (qm : string → qresult MainRow)
    (star : string) (rows : list MainRow) (tr : list event)
    (ci : gmap string Z) :
  qm star = QTable rows → searchInstruments qm star = (tr, Ok ci) →
  total_count ci = Z.of_nat (List.length rows).
Proof.
  intros Hq. rewrite searchInstruments_eq, Hq. intros [= <- <-].
  unfold np_unique_counts.
  rewrite dict_of_pairs_total.
  - unfold total_count at 1. rewrite map_fold_empty.
    rewrite counts_sum_length.
    + rewrite length_map. lia.
    + apply NoDup_remove_dups.
    + intros y Hy. now apply elem_of_remove_dups.
  - apply NoDup_remove_dups.
  - intros x _. apply lookup_empty.
Qed.

Lemma searchInstruments_total_witness :
  total_count ({["HARPS" := 2; "FEROS" := 1]} : gmap string Z) = 3.
Proof.
  assert (Hrun : searchInstruments Stub.query_main "51 Peg"
                 = ([QueryMain "51 Peg"], Ok {["HARPS" := 2; "FEROS" := 1]}))
    by (vm_compute; reflexivity).
  exact (searchInstruments_total Stub.query_main "51 Peg" _ _ _ eq_refl Hrun).
Defined.

(** ** The [get...data] methods: the whole loop *)

Section WholeLoop.

Variable Time : TimeLib.
Variable qm : string → qresult MainRow.
Variable qs : surveys_arg → string → qresult Row.
Variable rd : list string → option string → option exn.
Variables (star : string) (downloadPath date : option string) (SNR : option pyfloat).

Local Abbreviation download j :=
  (_searchAndDownload Time qs rd star (Some j) downloadPath date SNR).

(** X12. When [query_main] answers [None] for the star, every [get...data]
    method raises [TypeError] right after that query: nothing is printed,
    no survey is queried and nothing is retrieved. *)
Theorem unknown_star_stops_download (instrument : string) :
  qm star = QNone →
  let stop : M unit := ([QueryMain star], Raise TypeError) in
  getALLdata Time qm qs rd star downloadPath date SNR = stop
  ∧ _getData Time qm qs rd star instrument downloadPath date SNR = stop
  ∧ getFEROSdata Time qm qs rd star downloadPath date SNR = stop
  ∧ getUVESdata Time qm qs rd star downloadPath date SNR = stop
  ∧ getHARPSdata Time qm qs rd star downloadPath date SNR = stop
  ∧ getESPRESSOdata Time qm qs rd star downloadPath date SNR = stop.
Proof.
  intros Hq stop.
  assert (Hsi : searchInstruments qm star = ([QueryMain star], Raise TypeError))
    by (rewrite searchInstruments_eq, Hq; reflexivity).
  unfold getALLdata, _getData, getFEROSdata, getUVESdata, getHARPSdata,
    getESPRESSOdata.
  rewrite Hsi. subst stop. repeat split; reflexivity.
Qed.

(** The loop without its last line. *)
Local Abbreviation turns ci js :=
  (for_each js (fun j =>
     print (PyStr.nl +:+ "*** Searching for " +:+ j +:+ " results ***" +:+ PyStr.nl) ;;;
     if bool_decide (j ∈ dom ci)
     then _searchAndDownload Time qs rd star (Some j) downloadPath date SNR
     else print ("No " +:+ j +:+ " data" +:+ PyStr.nl))).

Lemma download_quiet (j : string) : printed (trace_of (download j)) = [].
Proof.
  rewrite searchAndDownload_eq.
  pose proof (searchStar_quiet Time qs star (Some j) date SNR) as [_ Hp].
  destruct (searchStar Time qs star (Some j) date SNR) as [t [R|e]];
    cbn [trace_of fst] in *; [|exact Hp].
  cbv zeta. cbn [fst]. rewrite printed_app, Hp. reflexivity.
Qed.

Lemma download_ok_once (j : string) :
  outcome (download j) = Ok tt →
  List.length (retrieve_calls (trace_of (download j))) = 1%nat.
Proof.
  rewrite searchAndDownload_eq.
  pose proof (searchStar_quiet Time qs star (Some j) date SNR) as [Hq _].
  destruct (searchStar Time qs star (Some j) date SNR) as [t [R|e]];
    cbn [trace_of outcome fst snd] in *; [|discriminate].
  intros _. cbv zeta. cbn [fst]. rewrite retrieve_calls_app, Hq. reflexivity.
Qed.

Lemma turns_cons (ci : gmap string Z) (j : string) (js : list string) :
  turns ci (j :: js) =
  if bool_decide (j ∈ dom ci)
  then match download j with
       | (t, Ok _) => (Print (searching j) :: t ++ fst (turns ci js),
                       snd (turns ci js))
       | (t, Raise e) => (Print (searching j) :: t, Raise e)
       end
  else (Print (searching j) :: Print (no_data j) :: fst (turns ci js),
        snd (turns ci js)).
Proof.
  cbn [for_each].
  destruct (bool_decide (j ∈ dom ci)).
  - destruct (download j) as [t [[]|e]]; [|reflexivity].
    destruct (for_each js _) as [t' r]. reflexivity.
  - destruct (for_each js _) as [t' r]. reflexivity.
Qed.

Lemma download_loop_turns (ci : gmap string Z) (js : list string) :
  download_loop Time qs rd ci js star downloadPath date SNR =
  match turns ci js with
  | (t, Ok _) => (t ++ [Print done_line], Ok tt)
  | (t, Raise e) => (t, Raise e)
  end.
Proof.
  unfold download_loop. destruct (for_each js _) as [t [[]|e]]; reflexivity.
Qed.

Lemma printed_print (text : string) (t : list event) :
  printed (Print text :: t) = text :: printed t.
Proof. reflexivity. Qed.

Lemma retrieve_calls_print (text : string) (t : list event) :
  retrieve_calls (Print text :: t) = retrieve_calls t.
Proof. reflexivity. Qed.

Lemma turns_ok (ci : gmap string Z) (js : list string) :
  snd (turns ci js) = Ok tt →
  printed (fst (turns ci js)) = flat_map (loop_lines ci) js
  ∧ List.length (retrieve_calls (fst (turns ci js)))
    = List.length (List.filter (fun j => bool_decide (j ∈ dom ci)) js).
Proof.
  induction js as [|j js IH]; [now split|].
  rewrite turns_cons. cbn [flat_map List.filter]. unfold loop_lines at 1.
  pose proof (download_quiet j) as Hp. pose proof (download_ok_once j) as Hr.
  unfold trace_of, outcome in Hp, Hr.
  destruct (bool_decide (j ∈ dom ci)).
  - destruct (download j) as [t [[]|e]]; cbn [fst snd] in *; [|discriminate].
    intros Hok. destruct (IH Hok) as [IHp IHr]. split.
    + now rewrite printed_print, printed_app, Hp, IHp.
    + rewrite retrieve_calls_print, retrieve_calls_app, length_app, Hr, IHr
        by reflexivity.
      reflexivity.
  - cbn [fst snd]. intros Hok. destruct (IH Hok) as [IHp IHr]. split.
    + now rewrite !printed_print, IHp.
    + now rewrite !retrieve_calls_print.
Qed.

(** X13. When the loop of a [get...data] method runs to its end, the console
    shows, for each looped instrument in order, the progress line followed
    by the notice [No ... data] if the instrument is not a key of the
    discovery dict, and finally the line [Done]; and exactly one retrieval
    was issued per looped instrument that is a key. *)
Theorem download_loop_completed (ci : gmap string Z) (js : list string) :
  let run := download_loop Time qs rd ci js star downloadPath date SNR in
  outcome run = Ok tt →
  printed (trace_of run) = flat_map (loop_lines ci) js ++ [done_line]
  ∧ List.length (retrieve_calls (trace_of run))
    = List.length (List.filter (fun j => bool_decide (j ∈ dom ci)) js).
Proof.
  intros run. subst run. rewrite download_loop_turns.
  pose proof (turns_ok ci js) as Hturns. unfold trace_of, outcome.
  destruct (turns ci js) as [t [[]|e]]; cbn [fst snd] in *; [|discriminate].
  intros _. destruct (Hturns eq_refl) as [Hp Hr]. split.
  - rewrite printed_app, Hp. reflexivity.
  - rewrite retrieve_calls_app, length_app, Hr. simpl. lia.
Qed.

Lemma turns_app (ci : gmap string Z) (js1 js2 : list string) :
  turns ci (js1 ++ js2) =
  match turns ci js1 with
  | (t, Ok _) => (t ++ fst (turns ci js2), snd (turns ci js2))
  | (t, Raise e) => (t, Raise e)
  end.
Proof.
  induction js1 as [|j js1 IH].
  - cbn [app]. change (turns ci []) with (ret tt). unfold ret.
    now destruct (turns ci js2).
  - change ((j :: js1) ++ js2) with (j :: (js1 ++ js2)).
    rewrite !turns_cons, IH.
    destruct (bool_decide (j ∈ dom ci)).
    + destruct (download j) as [t [[]|e]]; [|reflexivity].
      destruct (turns ci js1) as [t1 [[]|e1]]; cbn [fst snd];
        [now rewrite app_assoc | reflexivity].
    + destruct (turns ci js1) as [t1 [[]|e1]]; reflexivity.
Qed.

(** X14. The loop stops at the first download that raises: when the loop
    over [js1] completes, [j] is a key of the discovery dict and its
    download raises [e], the loop over [js1 ++ j :: js2] raises [e]; the
    console ends with the progress line of [j], so no instrument of [js2] is
    tried and the line [Done] is not printed. *)
Theorem download_loop_aborts (ci : gmap string Z) (js1 js2 : list string)
    (j : string) (e : exn) :
  outcome (download_loop Time qs rd ci js1 star downloadPath date SNR) = Ok tt →
  j ∈ dom ci → outcome (download j) = Raise e →
  let run := download_loop Time qs rd ci (js1 ++ j :: js2) star downloadPath
               date SNR in
  outcome run = Raise e
  ∧ printed (trace_of run) = flat_map (loop_lines ci) js1 ++ [searching j].
Proof.
  intros Hok Hj He run. subst run.
  rewrite download_loop_turns in Hok |- *. rewrite turns_app, turns_cons.
  rewrite (bool_decide_eq_true_2 _ Hj).
  pose proof (turns_ok ci js1) as Hturns.
  pose proof (download_quiet j) as Hp.
  unfold trace_of, outcome in *.
  destruct (turns ci js1) as [t1 [[]|e1]]; cbn [fst snd] in *; [|discriminate].
  destruct (Hturns eq_refl) as [Hp1 _].
  destruct (download j) as [t [[]|e']]; cbn [fst snd] in *; [discriminate|].
  injection He as ->. split; [reflexivity|].
  now rewrite printed_app, Hp1, printed_print, Hp.
Qed.

(** X15. When none of the four instruments is a key of the discovery dict,
    [getALLdata] prints the progress line and the notice for each of them in
    the fixed order, then [Done], and queries and retrieves nothing more. *)
Theorem getALLdata_nothing_observed (tr0 : list event) (ci : gmap string Z) :
  searchInstruments qm star = (tr0, Ok ci) →
  (∀ j, j ∈ instruments → j ∉ dom ci) →
  getALLdata Time qm qs rd star downloadPath date SNR
  = (tr0 ++ flat_map (fun j => [Print (searching j); Print (no_data j)])
              instruments ++ [Print done_line], Ok tt).
Proof.
  intros Hsi Habs. unfold getALLdata. rewrite Hsi, bind_ok.
  rewrite download_loop_turns.
  assert (Hall : ∀ js, (∀ j, j ∈ js → j ∉ dom ci) →
            turns ci js
            = (flat_map (fun j => [Print (searching j); Print (no_data j)]) js,
               Ok tt)).
  { induction js as [|j js IH]; intros Hjs; [reflexivity|].
    rewrite turns_cons, IH by (intros; apply Hjs; now right).
    rewrite bool_decide_eq_false_2 by (apply Hjs; left). reflexivity. }
  rewrite (Hall instruments Habs). reflexivity.
Qed.

End WholeLoop.

Lemma unknown_star_stops_download_witness :
  getALLdata Stub.Time Stub.query_main Stub.query_surveys Stub.retrieve_data
    "Nowhere" None None None
  = ([QueryMain "Nowhere"], Raise TypeError).
Proof.
  apply (unknown_star_stops_download Stub.Time Stub.query_main
           Stub.query_surveys Stub.retrieve_data "Nowhere" None None None
           "HARPS").
  reflexivity.
Defined.

Lemma download_loop_completed_witness :
  let run := download_loop Stub.Time Stub.query_surveys Stub.retrieve_data
               {["HARPS" := 2; "FEROS" := 1]} instruments "51 Peg"
               None None None in
  printed (trace_of run)
  = flat_map (loop_lines {["HARPS" := 2; "FEROS" := 1]}) instruments
    ++ [done_line]
  ∧ List.length (retrieve_calls (trace_of run))
    = List.length
        (List.filter
           (fun j => bool_decide
                       (j ∈ dom ({["HARPS" := 2; "FEROS" := 1]} : gmap string Z)))
           instruments).
Proof.
  apply (download_loop_completed Stub.Time Stub.query_surveys
           Stub.retrieve_data "51 Peg" None None None
           {["HARPS" := 2; "FEROS" := 1]} instruments).
  vm_compute. reflexivity.
Defined.

Lemma download_loop_aborts_witness :
  let run := download_loop Stub.Time Stub.query_surveys Stub.retrieve_data
               {["HARPS" := 1]} (["FEROS"; "UVES"] ++ "HARPS" :: ["ESPRESSO"])
               "Nowhere" None None None in
  outcome run = Raise AttributeError
  ∧ printed (trace_of run)
    = flat_map (loop_lines {["HARPS" := 1]}) ["FEROS"; "UVES"]
      ++ [searching "HARPS"].
Proof.
  apply (download_loop_aborts Stub.Time Stub.query_surveys Stub.retrieve_data
           "Nowhere" None None None {["HARPS" := 1]} ["FEROS"; "UVES"]
           ["ESPRESSO"] "HARPS" AttributeError).
  - vm_compute. reflexivity.
  - vm_compute. reflexivity.
  - vm_compute. reflexivity.
Defined.

Lemma getALLdata_nothing_observed_witness :
  getALLdata Stub.Time (fun _ => QTable [ {| main_Instrument := "SOPHIE" |} ])
    Stub.query_surveys Stub.retrieve_data "Vega" None None None
  = ([QueryMain "Vega"]
       ++ flat_map (fun j => [Print (searching j); Print (no_data j)]) instruments
       ++ [Print done_line], Ok tt).
Proof.
  apply (getALLdata_nothing_observed Stub.Time
           (fun _ => QTable [ {| main_Instrument := "SOPHIE" |} ])
           Stub.query_surveys Stub.retrieve_data "Vega" None None None
           [QueryMain "Vega"] {["SOPHIE" := 1]}).
  - vm_compute. reflexivity.
  - intros j Hj. vm_compute in Hj.
    rewrite dom_singleton_L, elem_of_singleton.
    repeat (apply elem_of_cons in Hj; destruct Hj as [-> | Hj];
            [discriminate|]).
    now apply elem_of_nil in Hj.
Defined.

(** ** [readList]: what else it does and does not do *)

Section ReadListMore.

Variable Time : TimeLib.
Variable qs : surveys_arg → string → qresult Row.
Variable catalog : string → option (list string).
Variables (filename : string) (instrument downloadPath date : option string).
Variable SNR : option pyfloat.

Local Abbreviation run :=
  (readList Time qs catalog filename instrument downloadPath date SNR).
Local Abbreviation found j := (searchStar Time qs j instrument date SNR).

Lemma body_trace (j : string) :
  printed (trace_of (readList_body Time qs instrument date SNR j))
  = [star_line j; if raises (found j) then not_found_line else ""]
  ∧ retrieve_calls (trace_of (readList_body Time qs instrument date SNR j)) = []
  ∧ survey_queries (trace_of (readList_body Time qs instrument date SNR j))
    = match Time (date_text date) with
      | Some _ => [(surveys_of instrument, j)]
      | None => []
      end.
Proof.
  rewrite turn_eq. cbn [trace_of fst].
  pose proof (searchStar_eq Time qs j instrument date SNR) as Heq.
  unfold raises, outcome.
  destruct (found j) as [t r]. cbn [snd].
  destruct (Time (date_text date)) as [d|].
  - cbv zeta in Heq.
    assert (t = [QuerySurveys (surveys_of instrument) j]) as ->.
    { destruct (qs (surveys_of instrument) j) as [tbl| |e];
        [destruct (reads_rows Time tbl)| |]; congruence. }
    now destruct r.
  - assert (t = []) as -> by congruence. now destruct r.
Qed.

Lemma bodies_trace (names : list string) :
  let t := flat_map (fun j => trace_of (readList_body Time qs instrument date
                                          SNR j)) names in
  printed t
  = flat_map (fun j => [star_line j;
                        if raises (found j) then not_found_line else ""]) names
  ∧ retrieve_calls t = []
  ∧ survey_queries t
    = match Time (date_text date) with
      | Some _ => map (fun j => (surveys_of instrument, j)) names
      | None => []
      end.
Proof.
  induction names as [|j names (IHp & IHr & IHq)].
  - cbn. now destruct (Time (date_text date)).
  - cbn [flat_map]. destruct (body_trace j) as (Hp & Hr & Hq).
    rewrite printed_app, retrieve_calls_app. unfold survey_queries in *.
    rewrite omap_app, Hp, Hr, Hq, IHp, IHr, IHq.
    now destruct (Time (date_text date)).
Qed.

(** X16. [readList] downloads nothing: no run issues a retrieval, and the
    argument [downloadPath] has no effect on the computation. *)
Theorem readList_never_downloads (otherPath : option string) :
  retrieve_calls (trace_of run) = []
  ∧ run = readList Time qs catalog filename instrument otherPath date SNR.
Proof.
  split; [|reflexivity]. rewrite readList_eq.
  destruct (catalog "WEBSITE_online.rdb") as [names|]; [|reflexivity].
  destruct (bodies_trace names) as (_ & Hr & _).
  destruct names as [|n1 [|n2 names]]; try reflexivity.
  cbn [trace_of fst]. exact Hr.
Qed.


(** X18. When [readList] returns, the console shows for each name of the
    catalogue, in order, the line [*** name ***] followed by the notice
    [Star not found in archive!] if [searchStar] raised for it and by an
    empty line if not; and one survey query per name was issued, in the
    order of the catalogue, unless the date threshold is rejected. *)
Theorem readList_console (names : list string) :
  catalog "WEBSITE_online.rdb" = Some names → List.length names ≠ 1%nat →
  printed (trace_of run)
  = flat_map (fun j => [star_line j;
                        if raises (found j) then not_found_line else ""]) names
  ∧ survey_queries (trace_of run)
    = match Time (date_text date) with
      | Some _ => map (fun j => (surveys_of instrument, j)) names
      | None => []
      end.
Proof.
  intros Hc Hn. rewrite readList_eq, Hc.
  destruct (bodies_trace names) as (Hp & _ & Hq).
  destruct names as [|n1 [|n2 names]]; [| now simpl in Hn |].
  - cbn. now destruct (Time (date_text date)).
  - cbn [trace_of fst]. split; [exact Hp | exact Hq].
Qed.


End ReadListMore.

Lemma readList_console_witness :
  printed (trace_of (readList Stub.Time Stub.query_surveys Stub.catalog3
                       "catalogue.rdb" None None None None))
  = ["*** X ***"; ""; "*** Nowhere ***"; not_found_line; "*** 51 Peg ***"; ""].
Proof.
  apply (proj1 (readList_console Stub.Time Stub.query_surveys Stub.catalog3
                  "catalogue.rdb" None None None None
                  ["X"; "Nowhere"; "51 Peg"] eq_refl ltac:(discriminate))).
Defined.


(** ** [searchInstrumentSpectra]: what is counted *)

Lemma np_sum_filter {A} (f : A → bool) (l : list A) :
  np_sum (map f l) = Z.of_nat (List.length (List.filter f l)).
Proof.
  induction l as [|x l IH]; [reflexivity|].
  cbn [map List.filter]. destruct (f x); simpl in *; lia.
Qed.

(** X20. With a non-empty [instrument], [searchInstrumentSpectra] still
    queries the four recognised surveys jointly, not the survey of that
    instrument, and its single count is the number of rows of that answer
    that carry the instrument, were observed on or after 1990-01-23 and have
    a signal-to-noise ratio that is not below 30. *)
Theorem searchInstrumentSpectra_single (Time : TimeLib)
    (qs : surveys_arg → string → qresult Row) (star i : string)
    (tr : list event) (m : gmap string Z) :
  i ≠ "" →
  searchInstrumentSpectra Time qs star (Some i) = (tr, Ok m) →
  tr = [QuerySurveys (SurveyList instruments) star]
  ∧ ∃ d0 tbl,
      Time "1990-01-23" = Some d0
      ∧ qs (SurveyList instruments) star = QTable tbl
      ∧ m = {[ i := Z.of_nat
                      (List.length
                         (List.filter
                            (fun r => (passes_date Time d0 r && passes_SNR (Finite 30) r)
                                      && String.eqb (Instrument r) i) tbl)) ]}.
Proof.
  intros Hne. rewrite searchInstrumentSpectra_eq.
  destruct (searchStar Time qs star None None None) as [t [R|e]] eqn:Hs;
    [|discriminate].
  destruct (searchStar_inv _ _ _ _ _ _ _ _ Hs) as (d0 & tbl & Hd & Hq & _ & -> & ->).
  assert (PyStr.truthy (Some i) = true) as ->.
  { unfold PyStr.truthy, PyStr.falsy.
    destruct (String.eqb_spec i ""); [contradiction | reflexivity]. }
  cbn [default]. intros [= <- <-]. split; [reflexivity|].
  exists d0, tbl. split; [exact Hd|]. split; [exact Hq|].
  rewrite insert_empty. unfold spectra_count.
  now rewrite np_sum_filter, filter_twice.
Qed.

Lemma searchInstrumentSpectra_single_witness :
  ∃ d0 tbl,
    Stub.Time "1990-01-23" = Some d0
    ∧ Stub.query_surveys (SurveyList instruments) "51 Peg" = QTable tbl
    ∧ (<["HARPS" := 1]> ∅ : gmap string Z)
      = {[ "HARPS" := Z.of_nat
                        (List.length
                           (List.filter
                              (fun r => (passes_date Stub.Time d0 r
                                         && passes_SNR (Finite 30) r)
                                        && String.eqb (Instrument r) "HARPS")
                              tbl)) ]}.
Proof.
  assert (Hrun : searchInstrumentSpectra Stub.Time Stub.query_surveys "51 Peg"
                   (Some "HARPS")
                 = ([QuerySurveys (SurveyList instruments) "51 Peg"],
                    Ok (<["HARPS" := 1]> ∅)))
    by (vm_compute; reflexivity).
  exact (proj2 (searchInstrumentSpectra_single Stub.Time Stub.query_surveys
                  "51 Peg" "HARPS" _ _ ltac:(discriminate) Hrun)).
Defined.

(** X21. The count returned for one of the four recognised instruments
    given by name is the entry of that instrument in the dict returned
    without an instrument, after the same query. *)
Theorem searchInstrumentSpectra_agrees (Time : TimeLib)
    (qs : surveys_arg → string → qresult Row) (star i : string)
    (tr : list event) (m4 : gmap string Z) :
  i ∈ instruments →
  searchInstrumentSpectra Time qs star None = (tr, Ok m4) →
  ∃ n, m4 !! i = Some n
       ∧ searchInstrumentSpectra Time qs star (Some i) = (tr, Ok {[ i := n ]}).
Proof.
  intros Hi. rewrite !searchInstrumentSpectra_eq.
  destruct (searchStar Time qs star None None None) as [t [R|e]];
    [|discriminate].
  change (PyStr.truthy None) with false. intros [= <- <-].
  exists (spectra_count i R).
  assert (PyStr.truthy (Some i) = true) as ->.
  { unfold instruments in Hi.
    repeat (apply elem_of_cons in Hi; destruct Hi as [-> | Hi];
            [reflexivity|]).
    now apply elem_of_nil in Hi. }
  cbn [default]. rewrite insert_empty. split; [|reflexivity].
  unfold instruments in Hi.
  repeat (apply elem_of_cons in Hi; destruct Hi as [-> | Hi];
          [now simplify_map_eq|]).
  now apply elem_of_nil in Hi.
Qed.

Lemma searchInstrumentSpectra_agrees_witness :
  ∃ n, (<["ESPRESSO" := 0]> (<["HARPS" := 1]>
          (<["UVES" := 0]> (<["FEROS" := 1]> (∅ : gmap string Z))))) !! "FEROS"
       = Some n
       ∧ searchInstrumentSpectra Stub.Time Stub.query_surveys "51 Peg"
           (Some "FEROS")
         = ([QuerySurveys (SurveyList instruments) "51 Peg"],
            Ok {[ "FEROS" := n ]}).
Proof.
  apply (searchInstrumentSpectra_agrees Stub.Time Stub.query_surveys "51 Peg"
           "FEROS").
  - left.
  - vm_compute. reflexivity.
Defined.
